(** * Prosper Loan Eligibility Predictor: a shallow embedding of app.py and myapp.py

    The repository holds two Streamlit scripts.  Variant A ([app.py]) loads one
    pickled pipeline, variant B ([myapp.py]) loads a model and a separate
    preprocessor.  Both collect eight applicant fields, build a one-row data
    frame, call [predict] and [predict_proba], and render a verdict, a
    confidence score and a summary table.

    Python values are embedded as follows: [int] as [Z], [float] as the
    binary64 instance of [spec_float], [str] as [string], exceptions as an
    inductive type, a script run as a writer-plus-error computation over the
    list of rendered Streamlit elements, and the resource cache of
    [st.cache_resource] as explicit state.  The two-column layout of the
    form and the [help] texts of variant B's widgets are left out: they
    change neither the values the widgets return nor what is computed. *)

From Stdlib Require Import ZArith List String Ascii Bool Lia.
From Stdlib Require Import Floats.SpecFloat.
From Stdlib Require Import DecimalString.
Import ListNotations.
Set Warnings "-register-all".
Local Open Scope Z_scope.
Local Open Scope string_scope.

(* ================================================================== *)
(** * Python floats (IEEE 754 binary64) *)

Module PyFloat.

Definition prec : Z := 53.
Definition emax : Z := 1024.

Definition float := spec_float.

(** [float(n)] for an integer [n], rounded to nearest even. *)
Definition of_Z (n : Z) : float := binary_normalize prec emax n 0 false.

Definition mul (x y : float) : float := SFmul prec emax x y.
Definition div (x y : float) : float := SFdiv prec emax x y.

(** The value a decimal literal [n/10^k] denotes when both [n] and [10^k]
    are exactly representable: the correctly rounded quotient. *)
Definition of_decimal (n : Z) (k : Z) : float := div (of_Z n) (of_Z (10 ^ k)).

Definition eqb (x y : float) : bool := SFeqb x y.
Definition ltb (x y : float) : bool := SFltb x y.
Definition leb (x y : float) : bool := SFleb x y.
(** Python's [x > y]. *)
Definition gtb (x y : float) : bool := SFltb y x.

Definition not_nan (x : float) : bool :=
  match x with
  | S754_nan => false
  | _ => true
  end.

Definition is_finite (x : float) : bool :=
  match x with
  | S754_zero _ | S754_finite _ _ _ => true
  | _ => false
  end.

(** ** Fixed-point formatting

    [format(x, '.2f')] prints the decimal with two fractional digits that
    is nearest to the exact binary value of [x], ties to even.  [hundredths]
    is that value scaled by 100, as a natural number; the sign is printed
    separately (Python prints [-0.00] for a negative value that rounds to
    zero). *)

Definition round_half_even_div (num den : Z) : Z :=
  let q := num / den in
  let r := num mod den in
  match (2 * r) ?= den with
  | Lt => q
  | Gt => q + 1
  | Eq => if Z.even q then q else q + 1
  end.

Definition hundredths (m : positive) (e : Z) : Z :=
  match e with
  | Zneg p => round_half_even_div (Zpos m * 100) (2 ^ Zpos p)
  | _ => Zpos m * 100 * 2 ^ e
  end.

Definition digit_char (d : Z) : ascii := ascii_of_nat (48 + Z.to_nat d).

Definition two_digits (n : Z) : string :=
  String (digit_char (n / 10)) (String (digit_char (n mod 10)) EmptyString).

(** Decimal digits of a non-negative integer, ["0"] for zero. *)
Definition string_of_Z_nonneg (n : Z) : string :=
  NilZero.string_of_uint (N.to_uint (Z.to_N n)).

(** Thousands separators: a comma before every group of three digits,
    counted from the right. *)
Fixpoint group_thousands (s : string) : string :=
  match s with
  | EmptyString => EmptyString
  | String c rest =>
      let tail := group_thousands rest in
      if andb (Nat.eqb (Nat.modulo (String.length rest) 3) 0)
              (negb (Nat.eqb (String.length rest) 0))
      then String c (String "," tail)
      else String c tail
  end.

Definition sign_string (s : bool) : string := if s then "-" else "".

Definition fixed2_of_hundredths (comma : bool) (s : bool) (h : Z) : string :=
  let ip := string_of_Z_nonneg (h / 100) in
  sign_string s ++ (if comma then group_thousands ip else ip)
    ++ "." ++ two_digits (h mod 100).

(** [format(x, '.2f')] when [comma] is false, [format(x, ',.2f')] when it
    is true. *)
Definition format_fixed2 (comma : bool) (x : float) : string :=
  match x with
  | S754_nan => "nan"
  | S754_infinity s => sign_string s ++ "inf"
  | S754_zero s => fixed2_of_hundredths comma s 0
  | S754_finite s m e => fixed2_of_hundredths comma s (hundredths m e)
  end.

(** [format(x, '.2%')]: the value is multiplied by 100 in binary64, printed
    with two fractional digits and followed by a percent sign. *)
Definition format_percent2 (x : float) : string :=
  format_fixed2 false (mul x (of_Z 100)) ++ "%".

End PyFloat.

Import PyFloat.

(* ================================================================== *)
(** * Python values, exceptions and tables *)

(** Scalars that the scripts handle: form values and predicted labels. *)
Inductive pyval : Type :=
| PyNone
| PyBool (b : bool)
| PyInt (z : Z)
| PyFloat (f : float)
| PyStr (s : string).

(** Exceptions below [Exception]; [str_exn] is Python's [str(e)]. *)
Inductive exn : Type :=
| FileNotFoundError (msg : string)
| IndexError (msg : string)
| OtherException (cls msg : string).

Definition str_exn (e : exn) : string :=
  match e with
  | FileNotFoundError msg => msg
  | IndexError msg => msg
  | OtherException _ msg => msg
  end.

Inductive result (A : Type) : Type :=
| Ok (a : A)
| Raise (e : exn).
Arguments Ok {A} a.
Arguments Raise {A} e.

Definition result_bind {A B} (c : result A) (k : A -> result B) : result B :=
  match c with
  | Ok a => k a
  | Raise e => Raise e
  end.

Declare Scope result_scope.
Delimit Scope result_scope with result.
Notation "x <- c ;; k" := (result_bind c (fun x => k))
  (at level 61, c at next level, right associativity) : result_scope.

(** A [pandas.DataFrame] built from a dict of lists: the columns in
    insertion order. *)
Definition DataFrame : Type := list (string * list pyval).

(** What a scikit-learn method accepts or returns as a table: a data frame
    or a numeric two-dimensional array. *)
Inductive tabular : Type :=
| Frame (df : DataFrame)
| NdArray (rows : list (list float)).

(** [prediction == n] for an integer literal [n].  [bool] is a subclass of
    [int]; a float compares by value (exact for the literals 0 and 1 used by
    the scripts); any other object is unequal to an integer. *)
Definition py_eq_int (v : pyval) (n : Z) : bool :=
  match v with
  | PyInt z => Z.eqb z n
  | PyBool b => Z.eqb (if b then 1 else 0) n
  | PyFloat f => PyFloat.eqb f (of_Z n)
  | PyStr _ => false
  | PyNone => false
  end.

Definition string_of_nat (n : nat) : string :=
  NilZero.string_of_uint (Nat.to_uint n).

(** Subscripting an array with a non-negative index; numpy raises
    [IndexError] out of range. *)
Definition getitem {A : Type} (l : list A) (i : nat) : result A :=
  match nth_error l i with
  | Some a => Ok a
  | None =>
      Raise (IndexError ("index " ++ string_of_nat i
                         ++ " is out of bounds for axis 0 with size "
                         ++ string_of_nat (List.length l)))
  end.

(** Python's [max] over a non-empty sequence of floats: the first element
    that no later element exceeds under [>]. *)
Definition max_step (best item : float) : float :=
  if gtb item best then item else best.

Definition py_max (l : list float) : option float :=
  match l with
  | [] => None
  | x :: rest => Some (fold_left max_step rest x)
  end.

(** An unpickled object, seen through the capabilities the scripts use:
    its truth value and the scikit-learn methods.  A method the object lacks
    raises (AttributeError), which the [result] covers.  The methods are
    functions of their argument: an artifact is never mutated by a call.
    The truth value is taken to be defined and the probabilities to be
    floats, as for a fitted scikit-learn estimator: an object whose
    [__bool__] or [__len__] raises, or whose probabilities cannot be
    formatted as numbers, is outside this model. *)
Record PyObject : Type := {
  truthy : bool;
  predict : tabular -> result (list pyval);
  predict_proba : tabular -> result (list (list float));
  transform : tabular -> result tabular
}.

(** The outside world at load time: [open(name, 'rb')] and [pickle.load].
    A file that unpickles yields an object; a pickle of [None] itself is
    outside this model. *)
Record World : Type := {
  open_rb : string -> result string;
  pickle_load : string -> result PyObject
}.

(* ================================================================== *)
(** * Streamlit *)

Inductive widget : Type :=
| number_input_int (label : string) (min_value max_value value : Z)
| number_input_float (label : string) (min_value max_value value step : float)
| selectbox_str (label : string) (options : list string)
| selectbox_int (label : string) (options : list Z)
| slider (label : string) (min_value max_value value : Z)
| form_submit_button (label : string).

Inductive element : Type :=
| st_set_page_config (page_title page_icon layout : string)
| st_title (body : string)
| st_markdown (body : string)
| st_subheader (body : string)
| st_error (body : string)
| st_success (body : string)
| st_write (body : string)
| st_table (data : DataFrame)
| st_widget (w : widget)
| st_form (key : string) (body : list element).

(** A piece of script: the elements it renders, in order, and either its
    value or the exception that stopped it.  Elements rendered before an
    exception stay on the page. *)
Definition st_io (A : Type) : Type := list element * result A.

Definition ret {A} (a : A) : st_io A := ([], Ok a).

Definition bind {A B} (c : st_io A) (k : A -> st_io B) : st_io B :=
  match c with
  | (out, Ok a) => let '(out', r) := k a in ((out ++ out')%list, r)
  | (out, Raise e) => (out, Raise e)
  end.

Definition emit (e : element) : st_io unit := ([e], Ok tt).

Definition lift {A} (c : result A) : st_io A := ([], c).

(** [try: body except ...: handler e]. *)
Definition try_except {A} (body : st_io A) (handler : exn -> st_io A) : st_io A :=
  match body with
  | (out, Ok a) => (out, Ok a)
  | (out, Raise e) => let '(out', r) := handler e in ((out ++ out')%list, r)
  end.

Declare Scope st_scope.
Delimit Scope st_scope with st.
Notation "x <- c ;; k" := (bind c (fun x => k))
  (at level 61, c at next level, right associativity) : st_scope.
Notation "c ;; k" := (bind c (fun _ => k))
  (at level 61, right associativity) : st_scope.

(** [@st.cache_resource]: the first call runs the body and stores its return
    value together with the elements it rendered; later calls return the
    stored value and replay the stored elements without running the body. *)
Definition cache_resource {V : Type} (body : st_io V)
    (cache : option (V * list element)) : st_io V * option (V * list element) :=
  match cache with
  | Some (v, shown) => ((shown, Ok v), cache)
  | None =>
      match body with
      | (shown, Ok v) => ((shown, Ok v), Some (v, shown))
      | (shown, Raise e) => ((shown, Raise e), None)
      end
  end.

(** A name bound to [None] or to a loaded object.  [None] is false and has
    none of the methods: calling one raises AttributeError. *)
Definition no_attribute {A : Type} (name : string) : result A :=
  Raise (OtherException "AttributeError"
           ("'NoneType' object has no attribute '" ++ name ++ "'")).

Definition NoneType : PyObject := {|
  truthy := false;
  predict := fun _ => no_attribute "predict";
  predict_proba := fun _ => no_attribute "predict_proba";
  transform := fun _ => no_attribute "transform"
|}.

Definition as_object (o : option PyObject) : PyObject :=
  match o with
  | None => NoneType
  | Some obj => obj
  end.

Definition truth (o : option PyObject) : bool := truthy (as_object o).

(* ================================================================== *)
(** * The applicant record (the values the eight widgets return) *)

Record ApplicantRecord : Type := {
  age : Z;
  stated_monthly_income : float;
  loan_amount : float;
  employment_status : string;
  credit_score : Z;
  loan_term : Z;
  loan_purpose : string;
  delinquencies : Z
}.

Definition employment_options : list string :=
  ["Employed"; "Self-employed"; "Unemployed"].
Definition loan_term_options : list Z := [12; 36; 60].
Definition loan_purpose_options : list string :=
  ["Debt Consolidation"; "Home Improvement"; "Business"; "Education"; "Other"].

Definition mem_string (s : string) (l : list string) : bool :=
  existsb (String.eqb s) l.
Definition mem_Z (z : Z) (l : list Z) : bool := existsb (Z.eqb z) l.

(** The ranges the widgets enforce ([min_value], [max_value], [options]). *)
Definition valid_record (r : ApplicantRecord) : bool :=
  Z.leb 18 (age r) && Z.leb (age r) 100
  && PyFloat.leb (of_Z 0) (stated_monthly_income r)
  && PyFloat.leb (stated_monthly_income r) (of_Z 100000)
  && PyFloat.leb (of_Z 1000) (loan_amount r)
  && PyFloat.leb (loan_amount r) (of_Z 50000)
  && mem_string (employment_status r) employment_options
  && Z.leb 300 (credit_score r) && Z.leb (credit_score r) 850
  && mem_Z (loan_term r) loan_term_options
  && mem_string (loan_purpose r) loan_purpose_options
  && Z.leb 0 (delinquencies r) && Z.leb (delinquencies r) 20.

(** UTF-8 bytes of the pictographs in the source. *)
Definition utf8 (bytes : list nat) : string :=
  fold_right (fun b s => String (ascii_of_nat b) s) EmptyString bytes.
Definition money_bag : string := utf8 [240; 159; 146; 176]%nat.
Definition check_mark : string := utf8 [226; 156; 133]%nat.
Definition cross_mark : string := utf8 [226; 157; 140]%nat.

(* ================================================================== *)
(** * Variant A: app.py *)

Module AppA.

Definition Cache : Type := option (option PyObject * list element).

Definition page_config : element :=
  st_set_page_config "Prosper Loan Eligibility Predictor" money_bag "wide".

Definition intro : list element :=
  [ page_config;
    st_title "Prosper Loan Eligibility Predictor";
    st_markdown "
This application predicts loan eligibility based on applicant information using a pre-trained machine learning pipeline.
Fill in the form below and click 'Predict' to see if you're eligible for a loan.
" ].

(** [load_model_pipeline], without its decorator. *)
Definition load_model_pipeline (w : World) : st_io (option PyObject) :=
  try_except
    (lift (file <- open_rb w "model_pipeline_Nb.pkl" ;;
           pipeline <- pickle_load w file ;;
           Ok (Some pipeline))%result)
    (fun e =>
       match e with
       | FileNotFoundError _ =>
           (emit (st_error "Model file not found. Please ensure 'model_pipeline_Nb.pkl' exists in the directory.") ;;
            ret None)%st
       | _ =>
           (emit (st_error ("Error loading model pipeline: " ++ str_exn e)) ;;
            ret None)%st
       end).

Definition form : element :=
  st_form "loan_eligibility_form"
    [ st_subheader "Applicant Information";
      st_widget (number_input_int "Age" 18 100 30);
      st_widget (number_input_float "Stated Monthly Income (USD)"
                   (of_Z 0) (of_Z 100000) (of_Z 5000) (of_Z 100));
      st_widget (number_input_float "Loan Amount (USD)"
                   (of_Z 1000) (of_Z 50000) (of_Z 10000) (of_Z 500));
      st_widget (selectbox_str "Employment Status" employment_options);
      st_widget (slider "Credit Score" 300 850 700);
      st_widget (selectbox_int "Loan Term (months)" loan_term_options);
      st_widget (selectbox_str "Loan Purpose" loan_purpose_options);
      st_widget (number_input_int "Number of Delinquencies in Last 2 Years" 0 20 0);
      st_widget (form_submit_button "Predict") ].

Definition input_data (r : ApplicantRecord) : DataFrame :=
  [ ("Age", [PyInt (age r)]);
    ("StatedMonthlyIncome", [PyFloat (stated_monthly_income r)]);
    ("LoanAmount", [PyFloat (loan_amount r)]);
    ("EmploymentStatus", [PyStr (employment_status r)]);
    ("CreditScore", [PyInt (credit_score r)]);
    ("LoanTerm", [PyInt (loan_term r)]);
    ("LoanPurpose", [PyStr (loan_purpose r)]);
    ("Delinquencies", [PyInt (delinquencies r)]) ].

(** Lines 58-72: the feature row, the two model calls and the confidence
    score.  Nothing is rendered here. *)
Definition inference (pipeline : PyObject) (r : ApplicantRecord)
  : result (pyval * list float * float) :=
  (let input_data := input_data r in
   predictions <- predict pipeline (Frame input_data) ;;
   prediction <- getitem predictions 0 ;;
   probabilities <- predict_proba pipeline (Frame input_data) ;;
   prediction_proba <- getitem probabilities 0 ;;
   confidence_score <- (if py_eq_int prediction 1
                        then getitem prediction_proba 1
                        else getitem prediction_proba 0) ;;
   Ok (prediction, prediction_proba, confidence_score))%result.

Definition eligible_message : string := check_mark ++ " Eligible for Loan".
Definition high_risk_message : string := cross_mark ++ " High Credit Risk".

Definition confidence_line (confidence_score : float) : element :=
  st_write ("Confidence Score: " ++ format_percent2 confidence_score).

Definition verdict (prediction : pyval) (confidence_score : float) : list element :=
  if py_eq_int prediction 1
  then [ st_success eligible_message;
         confidence_line confidence_score;
         st_markdown "Based on your inputs, you are likely to be **approved** for a loan." ]
  else [ st_error high_risk_message;
         confidence_line confidence_score;
         st_markdown "Based on your inputs, you are considered a **high credit risk** for this loan." ].

Definition summary_data (r : ApplicantRecord) : DataFrame :=
  [ ("Parameter",
      [ PyStr "Age"; PyStr "Monthly Income (USD)"; PyStr "Loan Amount (USD)";
        PyStr "Employment Status"; PyStr "Credit Score";
        PyStr "Loan Term (months)"; PyStr "Loan Purpose"; PyStr "Delinquencies" ]);
    ("Value",
      [ PyInt (age r);
        PyStr ("$" ++ format_fixed2 true (stated_monthly_income r));
        PyStr ("$" ++ format_fixed2 true (loan_amount r));
        PyStr (employment_status r);
        PyInt (credit_score r);
        PyInt (loan_term r);
        PyStr (loan_purpose r);
        PyInt (delinquencies r) ]) ].

Definition emit_all (l : list element) : st_io unit := (l, Ok tt).

(** The [try] / [except Exception] block of lines 57-97. *)
Definition prediction_block (pipeline : PyObject) (r : ApplicantRecord) : st_io unit :=
  try_except
    (out <- lift (inference pipeline r) ;;
     let '(prediction, _, confidence_score) := out in
     emit (st_subheader "Prediction Result") ;;
     emit_all (verdict prediction confidence_score) ;;
     emit (st_subheader "Applicant Information Summary") ;;
     emit (st_table (summary_data r)))%st
    (fun e =>
       (emit (st_error ("Error during prediction: " ++ str_exn e)) ;;
        emit (st_write "Please check your inputs and try again."))%st).

(** One run of the script: Streamlit executes it from the top at every
    submission, with the resource cache carried over. *)
Definition run (w : World) (cache : Cache) (submit_button : bool)
    (r : ApplicantRecord) : st_io unit * Cache :=
  let '(loaded, cache') := cache_resource (load_model_pipeline w) cache in
  ((emit_all intro ;;
    pipeline <- loaded ;;
    emit form ;;
    if submit_button && truth pipeline
    then prediction_block (as_object pipeline) r
    else ret tt)%st,
   cache').

End AppA.

(* ================================================================== *)
(** * Variant B: myapp.py *)

Module AppB.

Definition Cache : Type :=
  option ((option PyObject * option PyObject) * list element).

Definition page_config : element :=
  st_set_page_config "Prosper Loan Eligibility Predictor" money_bag "wide".

Definition intro : list element :=
  [ page_config;
    st_title "Prosper Loan Eligibility Predictor";
    st_markdown "
This application predicts loan eligibility based on applicant information using a pre-trained machine learning model.
Fill in the form below and click 'Predict' to see if you're eligible for a loan.
" ].

(** [load_model_and_preprocessor], without its decorator. *)
Definition load_model_and_preprocessor (w : World)
  : st_io (option PyObject * option PyObject) :=
  try_except
    (lift (model_file <- open_rb w "model.pkl" ;;
           model <- pickle_load w model_file ;;
           preprocessor_file <- open_rb w "preprocessor.pkl" ;;
           preprocessor <- pickle_load w preprocessor_file ;;
           Ok (Some model, Some preprocessor))%result)
    (fun e =>
       match e with
       | FileNotFoundError _ =>
           (emit (st_error "Model or preprocessor files not found. Please ensure 'model.pkl' and 'preprocessor.pkl' exist in the current directory.") ;;
            ret (None, None))%st
       | _ =>
           (emit (st_error ("Error loading model or preprocessor: " ++ str_exn e)) ;;
            ret (None, None))%st
       end).

Definition form : element :=
  st_form "loan_eligibility_form"
    [ st_subheader "Applicant Information";
      st_widget (number_input_int "Age" 18 100 30);
      st_widget (number_input_float "Stated Monthly Income (USD)"
                   (of_Z 0) (of_Z 100000) (of_Z 5000) (of_Z 100));
      st_widget (number_input_float "Loan Amount (USD)"
                   (of_Z 1000) (of_Z 50000) (of_Z 10000) (of_Z 500));
      st_widget (selectbox_str "Employment Status" employment_options);
      st_widget (slider "Credit Score" 300 850 700);
      st_widget (selectbox_int "Loan Term (months)" loan_term_options);
      st_widget (selectbox_str "Loan Purpose" loan_purpose_options);
      st_widget (number_input_int "Number of Delinquencies in the Last 2 Years" 0 20 0);
      st_widget (form_submit_button "Predict") ].

Definition input_data (r : ApplicantRecord) : DataFrame :=
  [ ("Age", [PyInt (age r)]);
    ("StatedMonthlyIncome", [PyFloat (stated_monthly_income r)]);
    ("LoanAmount", [PyFloat (loan_amount r)]);
    ("EmploymentStatus", [PyStr (employment_status r)]);
    ("CreditScore", [PyInt (credit_score r)]);
    ("LoanTerm", [PyInt (loan_term r)]);
    ("LoanPurpose", [PyStr (loan_purpose r)]);
    ("Delinquencies", [PyInt (delinquencies r)]) ].

(** Lines 111-130: the feature row, the preprocessing transform, the two
    model calls and the confidence score.  Nothing is rendered here. *)
Definition inference (model preprocessor : PyObject) (r : ApplicantRecord)
  : result (pyval * list float * float) :=
  (let input_data := input_data r in
   processed_data <- transform preprocessor (Frame input_data) ;;
   predictions <- predict model processed_data ;;
   prediction <- getitem predictions 0 ;;
   probabilities <- predict_proba model processed_data ;;
   prediction_proba <- getitem probabilities 0 ;;
   confidence_score <- (if py_eq_int prediction 1
                        then getitem prediction_proba 1
                        else getitem prediction_proba 0) ;;
   Ok (prediction, prediction_proba, confidence_score))%result.

Definition eligible_message : string := "**Eligible for Loan**".
Definition high_risk_message : string := "**High Credit Risk**".

Definition confidence_line (confidence_score : float) : element :=
  st_write ("Confidence Score: " ++ format_percent2 confidence_score).

Definition verdict (prediction : pyval) (confidence_score : float) : list element :=
  if py_eq_int prediction 0
  then [ st_success eligible_message;
         confidence_line confidence_score;
         st_write "Congratulations! Based on the provided information, you are eligible for a loan." ]
  else [ st_error high_risk_message;
         confidence_line confidence_score;
         st_write "Based on the provided information, you are considered a high credit risk for this loan." ].

Definition summary_data (r : ApplicantRecord) : DataFrame :=
  [ ("Parameter",
      [ PyStr "Age"; PyStr "Monthly Income (USD)"; PyStr "Loan Amount (USD)";
        PyStr "Employment Status"; PyStr "Credit Score";
        PyStr "Loan Term (months)"; PyStr "Loan Purpose"; PyStr "Delinquencies" ]);
    ("Value",
      [ PyInt (age r);
        PyStr ("$" ++ format_fixed2 true (stated_monthly_income r));
        PyStr ("$" ++ format_fixed2 true (loan_amount r));
        PyStr (employment_status r);
        PyInt (credit_score r);
        PyInt (loan_term r);
        PyStr (loan_purpose r);
        PyInt (delinquencies r) ]) ].

Definition emit_all (l : list element) : st_io unit := (l, Ok tt).

(** The [try] / [except Exception] block of lines 109-156. *)
Definition prediction_block (model preprocessor : PyObject)
    (r : ApplicantRecord) : st_io unit :=
  try_except
    (out <- lift (inference model preprocessor r) ;;
     let '(prediction, _, confidence_score) := out in
     emit (st_subheader "Prediction Result") ;;
     emit_all (verdict prediction confidence_score) ;;
     emit (st_subheader "Applicant Information Summary") ;;
     emit (st_table (summary_data r)))%st
    (fun e =>
       (emit (st_error ("Error during prediction: " ++ str_exn e)) ;;
        emit (st_write "Please check your inputs and try again."))%st).

Definition run (w : World) (cache : Cache) (submit_button : bool)
    (r : ApplicantRecord) : st_io unit * Cache :=
  let '(loaded, cache') := cache_resource (load_model_and_preprocessor w) cache in
  ((emit_all intro ;;
    objects <- loaded ;;
    let '(model, preprocessor) := objects in
    emit form ;;
    if submit_button && truth model && truth preprocessor
    then prediction_block (as_object model) (as_object preprocessor) r
    else ret tt)%st,
   cache').

End AppB.

(* ================================================================== *)
(** * Observing a run *)

(** The elements a run leaves on the page. *)
Definition page_of {S : Type} (out : st_io unit * S) : list element :=
  fst (fst out).

(** The value a cached loader call hands to the script. *)
Definition cached_value {V : Type} (body : st_io V)
    (cache : option (V * list element)) : option V :=
  match snd (fst (cache_resource body cache)) with
  | Ok v => Some v
  | Raise _ => None
  end.

(** [open(name, 'rb')] followed by [pickle.load], as each loader does it. *)
Definition unpickle_file (w : World) (name : string) : result PyObject :=
  (file <- open_rb w name ;; pickle_load w file)%result.

(** What the names [pipeline] (variant A) and [model], [preprocessor]
    (variant B) are bound to in a run started from cache [c]. *)
Definition pipeline_in (w : World) (c : AppA.Cache) : option PyObject :=
  match cached_value (AppA.load_model_pipeline w) c with
  | Some v => v
  | None => None
  end.

Definition objects_in (w : World) (c : AppB.Cache) : option PyObject * option PyObject :=
  match cached_value (AppB.load_model_and_preprocessor w) c with
  | Some v => v
  | None => (None, None)
  end.

Definition model_in (w : World) (c : AppB.Cache) : PyObject :=
  as_object (fst (objects_in w c)).
Definition preprocessor_in (w : World) (c : AppB.Cache) : PyObject :=
  as_object (snd (objects_in w c)).

(** The condition of the prediction branch, lines 56 (A) and 108 (B). *)
Definition enteredA (w : World) (c : AppA.Cache) (submit_button : bool) : bool :=
  submit_button && truth (pipeline_in w c).
Definition enteredB (w : World) (c : AppB.Cache) (submit_button : bool) : bool :=
  submit_button && truth (fst (objects_in w c)) && truth (snd (objects_in w c)).

(** An artifact file that is missing or does not deserialize. *)
Definition unreadable (w : World) (name : string) : Prop :=
  exists e, unpickle_file w name = Raise e.

(** What the prediction block leaves on the page, by the outcome of
    inference: the result area or the two lines of the handler. *)
Definition error_area (e : exn) : list element :=
  [ st_error ("Error during prediction: " ++ str_exn e);
    st_write "Please check your inputs and try again." ].

Definition result_areaA (p : PyObject) (r : ApplicantRecord) : list element :=
  match AppA.inference p r with
  | Ok (l, _, conf) =>
      (st_subheader "Prediction Result" :: AppA.verdict l conf
         ++ [st_subheader "Applicant Information Summary";
             st_table (AppA.summary_data r)])%list
  | Raise e => error_area e
  end.

Definition result_areaB (m p : PyObject) (r : ApplicantRecord) : list element :=
  match AppB.inference m p r with
  | Ok (l, _, conf) =>
      (st_subheader "Prediction Result" :: AppB.verdict l conf
         ++ [st_subheader "Applicant Information Summary";
             st_table (AppB.summary_data r)])%list
  | Raise e => error_area e
  end.

(** Element classes of the result area. *)
Definition is_verdict (e : element) : bool :=
  match e with
  | st_success s =>
      String.eqb s AppA.eligible_message || String.eqb s AppB.eligible_message
  | st_error s =>
      String.eqb s AppA.high_risk_message || String.eqb s AppB.high_risk_message
  | _ => false
  end.

Definition is_confidence (e : element) : bool :=
  match e with
  | st_write s => String.prefix "Confidence Score: " s
  | _ => false
  end.

Definition is_table (e : element) : bool :=
  match e with
  | st_table _ => true
  | _ => false
  end.

Definition is_result (e : element) : bool :=
  is_verdict e || is_confidence e || is_table e.

(** What a loader can leave in the cache: the objects and nothing shown,
    or [None] and one error message. *)
Definition loader_outcome {V : Type} (absent : V -> Prop) (v : V)
    (shown : list element) : Prop :=
  (~ absent v /\ shown = []) \/
  (absent v /\ exists msg, shown = [st_error msg] /\ is_result (st_error msg) = false).

Definition absentA (v : option PyObject) : Prop := v = None.
Definition absentB (v : option PyObject * option PyObject) : Prop := v = (None, None).

(** The cache states a session can be in: empty at process start, then
    whatever the runs leave behind.  The files may change between runs. *)
Inductive reachableA : AppA.Cache -> Prop :=
| reachableA_start : reachableA None
| reachableA_run (w : World) (c : AppA.Cache) (b : bool) (r : ApplicantRecord) :
    reachableA c -> reachableA (snd (AppA.run w c b r)).

Inductive reachableB : AppB.Cache -> Prop :=
| reachableB_start : reachableB None
| reachableB_run (w : World) (c : AppB.Cache) (b : bool) (r : ApplicantRecord) :
    reachableB c -> reachableB (snd (AppB.run w c b r)).

(** A session: the script is run once per submission, the cache carried
    from one run to the next. *)
Fixpoint sessionA (c : AppA.Cache) (subs : list (World * bool * ApplicantRecord))
  : list (st_io unit) :=
  match subs with
  | [] => []
  | (w, b, r) :: rest =>
      let '(out, c') := AppA.run w c b r in out :: sessionA c' rest
  end.

Fixpoint sessionB (c : AppB.Cache) (subs : list (World * bool * ApplicantRecord))
  : list (st_io unit) :=
  match subs with
  | [] => []
  | (w, b, r) :: rest =>
      let '(out, c') := AppB.run w c b r in out :: sessionB c' rest
  end.

(** The eight values as the widgets returned them, in the order of the
    summary table, and the [Value] column of a table. *)
Definition submitted_values (r : ApplicantRecord) : list pyval :=
  [ PyInt (age r); PyFloat (stated_monthly_income r); PyFloat (loan_amount r);
    PyStr (employment_status r); PyInt (credit_score r); PyInt (loan_term r);
    PyStr (loan_purpose r); PyInt (delinquencies r) ].

Fixpoint column (name : string) (df : DataFrame) : option (list pyval) :=
  match df with
  | [] => None
  | (k, v) :: rest => if String.eqb k name then Some v else column name rest
  end.

Definition is_digit (c : ascii) : bool :=
  Nat.leb 48 (nat_of_ascii c) && Nat.leb (nat_of_ascii c) 57.

Definition in_unit_interval (p : float) : bool :=
  PyFloat.leb (of_Z 0) p && PyFloat.leb p (of_Z 1).

(* ================================================================== *)
(** * Concrete artifacts and records used in the examples *)

(** A fitted estimator that answers every row with the same label and the
    same probability vector; as a transformer it hands the table on. *)
Definition stub_model (label : pyval) (proba : list float) : PyObject := {|
  truthy := true;
  predict := fun _ => Ok [label];
  predict_proba := fun _ => Ok [proba];
  transform := fun t => Ok t
|}.

(** An estimator whose [predict] fails. *)
Definition broken_model : PyObject := {|
  truthy := true;
  predict := fun _ => Raise (OtherException "ValueError" "could not convert string to float: 'Employed'");
  predict_proba := fun _ => Ok [[of_decimal 2 1; of_decimal 8 1]];
  transform := fun t => Ok t
|}.

(** A disk on which every artifact file unpickles to [obj]. *)
Definition disk_with (obj : PyObject) : World := {|
  open_rb := fun name => Ok name;
  pickle_load := fun _ => Ok obj
|}.

(** The disk of the end-to-end scenario: label 1, probabilities 0.2 and 0.8. *)
Definition stub_world : World :=
  disk_with (stub_model (PyInt 1) [of_decimal 2 1; of_decimal 8 1]).

(** A disk without any artifact file. *)
Definition empty_disk : World := {|
  open_rb := fun name =>
    Raise (FileNotFoundError ("[Errno 2] No such file or directory: '" ++ name ++ "'"));
  pickle_load := fun _ => Raise (OtherException "UnpicklingError" "invalid load key")
|}.

Definition default_record : ApplicantRecord := {|
  age := 30;
  stated_monthly_income := of_Z 5000;
  loan_amount := of_Z 10000;
  employment_status := "Employed";
  credit_score := 700;
  loan_term := 12;
  loan_purpose := "Debt Consolidation";
  delinquencies := 0
|}.

Definition scenario_record : ApplicantRecord := {|
  age := 30;
  stated_monthly_income := of_Z 5000;
  loan_amount := of_Z 10000;
  employment_status := "Employed";
  credit_score := 700;
  loan_term := 36;
  loan_purpose := "Debt Consolidation";
  delinquencies := 0
|}.

Definition boundary_record : ApplicantRecord := {|
  age := 18;
  stated_monthly_income := of_Z 0;
  loan_amount := of_Z 50000;
  employment_status := "Unemployed";
  credit_score := 300;
  loan_term := 60;
  loan_purpose := "Other";
  delinquencies := 20
|}.

(** Two records that differ only in the third decimal of the income. *)
Definition record_with_income (income : float) : ApplicantRecord := {|
  age := 30;
  stated_monthly_income := income;
  loan_amount := of_Z 10000;
  employment_status := "Employed";
  credit_score := 700;
  loan_term := 12;
  loan_purpose := "Debt Consolidation";
  delinquencies := 0
|}.

(** Incomes 1234.567 and 1234.57, and a three-class probability vector. *)
Definition income_1234_567 : float := of_decimal 1234567 3.
Definition income_1234_57 : float := of_decimal 123457 2.
Definition three_class_row : list float :=
  [of_decimal 1 1; of_decimal 2 1; of_decimal 7 1].

(** Strings all of whose characters satisfy [f]. *)
Fixpoint string_forall (f : ascii -> bool) (s : string) : bool :=
  match s with
  | EmptyString => true
  | String c rest => f c && string_forall f rest
  end.

(** Floats that are a zero of either sign or finite and positive, and the
    zero with the sign bit set. *)
Definition nonnegative_finite (x : float) : bool :=
  match x with
  | S754_zero _ => true
  | S754_finite false _ _ => true
  | _ => false
  end.

Definition is_negative_zero (x : float) : bool :=
  match x with
  | S754_zero true => true
  | _ => false
  end.

(** The magnitude of a finite float as a fraction [(numerator,
    denominator)] of integers; [(0, 1)] for the other values. *)
Definition ratio_of (x : float) : Z * Z :=
  match x with
  | S754_finite _ m (Zneg p) => (Zpos m, 2 ^ Zpos p)
  | S754_finite _ m e => (Zpos m * 2 ^ e, 1)
  | _ => (0, 1)
  end.

(** What the user did in a submission, without the disk it ran against. *)
Definition submitted (s : World * bool * ApplicantRecord) : bool * ApplicantRecord :=
  (snd (fst s), snd s).

(** An unpickled object that is false in a boolean context, as an empty
    container is; its methods answer all the same. *)
Definition falsy_object : PyObject := {|
  truthy := false;
  predict := fun _ => Ok [PyInt 1];
  predict_proba := fun _ => Ok [[of_decimal 2 1; of_decimal 8 1]];
  transform := fun t => Ok t
|}.

(* ================================================================== *)
(** * Order facts about binary64 comparison *)

Section FloatOrder.

Lemma compare_cont_Eq (p q : positive) : Pos.compare_cont Eq p q = Pos.compare p q.
Proof. reflexivity. Qed.

Ltac order_cases :=
  repeat match goal with
    | |- context [Z.compare ?a ?b] => destruct (Z.compare_spec a b)
    | H : context [Z.compare ?a ?b] |- _ => destruct (Z.compare_spec a b)
    | |- context [Pos.compare_cont Eq ?a ?b] =>
        change (Pos.compare_cont Eq a b) with (Pos.compare a b) in *;
        destruct (Pos.compare_spec a b)
    | H : context [Pos.compare_cont Eq ?a ?b] |- _ =>
        change (Pos.compare_cont Eq a b) with (Pos.compare a b) in *;
        destruct (Pos.compare_spec a b)
    end;
  simpl in *; try subst; try congruence; try lia.

Lemma SFcompare_swap (x y : float) (c : comparison) :
  SFcompare x y = Some c -> SFcompare y x = Some (CompOpp c).
Proof.
  destruct x as [[]|[]| |[] mx ex], y as [[]|[]| |[] my ey];
    simpl; intros H; try discriminate; try (injection H as <-; reflexivity);
    rewrite compare_cont_Eq in *; injection H as <-; f_equal;
    rewrite (Z.compare_antisym ex ey), (Pos.compare_antisym mx my);
    destruct (ex ?= ey)%Z, (mx ?= my)%positive; reflexivity.
Qed.

Lemma leb_not_nan_l (x y : float) : PyFloat.leb x y = true -> not_nan x = true.
Proof. destruct x; try reflexivity. discriminate. Qed.

Lemma leb_not_nan_r (x y : float) : PyFloat.leb x y = true -> not_nan y = true.
Proof. destruct x as [[]|[]| |[] mx ex], y; try reflexivity; discriminate. Qed.

Lemma SFcompare_defined (x y : float) :
  not_nan x = true -> not_nan y = true -> exists c, SFcompare x y = Some c.
Proof.
  destruct x, y; simpl; intros; try discriminate; eexists; reflexivity.
Qed.

(** Without NaN, [not (y > x)] is [y <= x]. *)
Lemma not_gtb_leb (x y : float) :
  not_nan x = true -> not_nan y = true ->
  gtb y x = false -> PyFloat.leb y x = true.
Proof.
  intros Hx Hy. unfold gtb, PyFloat.leb, SFltb, SFleb.
  destruct (SFcompare_defined x y Hx Hy) as [c Hc].
  rewrite Hc, (SFcompare_swap _ _ _ Hc). destruct c; simpl; congruence.
Qed.

Lemma gtb_leb (x y : float) : gtb y x = true -> PyFloat.leb x y = true.
Proof.
  unfold gtb, PyFloat.leb, SFltb, SFleb. destruct (SFcompare x y) as [[]|]; congruence.
Qed.

Lemma leb_refl (x : float) : not_nan x = true -> PyFloat.leb x x = true.
Proof.
  unfold PyFloat.leb, SFleb.
  destruct x as [[]|[]| |[] mx ex]; simpl; try reflexivity; try discriminate;
    intros _; rewrite compare_cont_Eq, Z.compare_refl, Pos.compare_refl; reflexivity.
Qed.

Lemma leb_trans (x y z : float) :
  PyFloat.leb x y = true -> PyFloat.leb y z = true -> PyFloat.leb x z = true.
Proof.
  unfold PyFloat.leb, SFleb.
  destruct x as [[]|[]| |[] mx ex], y as [[]|[]| |[] my ey], z as [[]|[]| |[] mz ez];
    simpl; try reflexivity; try discriminate;
    intros Hxy Hyz; order_cases.
Qed.

Lemma leb_antisym (x y : float) :
  PyFloat.leb x y = true -> PyFloat.leb y x = true -> PyFloat.eqb x y = true.
Proof.
  unfold PyFloat.leb, PyFloat.eqb, SFleb, SFeqb. intros Hxy Hyx.
  destruct (SFcompare x y) as [c|] eqn:Hc; [|discriminate].
  rewrite (SFcompare_swap _ _ _ Hc) in Hyx. destruct c; simpl in *; congruence.
Qed.

Lemma eqb_sym (x y : float) : PyFloat.eqb x y = true -> PyFloat.eqb y x = true.
Proof.
  unfold PyFloat.eqb, SFeqb. intros H.
  destruct (SFcompare x y) as [c|] eqn:Hc; [|discriminate].
  rewrite (SFcompare_swap _ _ _ Hc). destruct c; simpl in *; congruence.
Qed.

End FloatOrder.

(* ================================================================== *)
(** * Python's [max] *)

Section PyMax.

Lemma fold_max_mem (rest : list float) (best : float) :
  In (fold_left max_step rest best) (best :: rest).
Proof.
  revert best. induction rest as [|item tl IH]; intros best; simpl.
  - now left.
  - destruct (IH (max_step best item)) as [H|H].
    + unfold max_step in H at 1. destruct (gtb item best); auto.
    + auto.
Qed.

Lemma fold_max_upper (rest : list float) (best : float) :
  not_nan best = true ->
  Forall (fun p => not_nan p = true) rest ->
  Forall (fun p => PyFloat.leb p (fold_left max_step rest best) = true) (best :: rest).
Proof.
  revert best. induction rest as [|item tl IH]; intros best Hb Hrest; simpl.
  - constructor; [now apply leb_refl | constructor].
  - inversion Hrest as [|? ? Hitem Htl]; subst.
    assert (Hstep : not_nan (max_step best item) = true)
      by (unfold max_step; destruct (gtb item best); assumption).
    specialize (IH (max_step best item) Hstep Htl).
    inversion IH as [|? ? Hhead Htail]; subst.
    assert (Hbest : PyFloat.leb best (max_step best item) = true).
    { unfold max_step. destruct (gtb item best) eqn:G;
        [now apply gtb_leb | now apply leb_refl]. }
    assert (Hit : PyFloat.leb item (max_step best item) = true).
    { unfold max_step. destruct (gtb item best) eqn:G;
        [now apply leb_refl | now apply not_gtb_leb]. }
    constructor; [eapply leb_trans; eassumption|].
    constructor; [eapply leb_trans; eassumption | assumption].
Qed.

(** An element that bounds the whole vector equals its [max]. *)
Lemma py_max_of_bound (row : list float) (top : float) :
  In top row ->
  Forall (fun p => PyFloat.leb p top = true) row ->
  exists m, py_max row = Some m /\ PyFloat.eqb top m = true.
Proof.
  intros Hin Hall. destruct row as [|x rest]; [contradiction|].
  simpl. eexists; split; [reflexivity|].
  assert (Hnn : Forall (fun p => not_nan p = true) (x :: rest)).
  { eapply Forall_impl; [|exact Hall]. intros a Ha. exact (leb_not_nan_l _ _ Ha). }
  inversion Hnn as [|? ? Hx Hrest]; subst.
  pose proof (fold_max_upper rest x Hx Hrest) as Hup.
  pose proof (fold_max_mem rest x) as Hmem.
  rewrite Forall_forall in Hup, Hall.
  apply leb_antisym; auto.
Qed.

End PyMax.

(* ================================================================== *)
(** * Shape of a run *)

Lemma cache_resource_hit {V : Type} (body : st_io V) (v : V) (shown : list element) :
  cache_resource body (Some (v, shown)) = ((shown, Ok v), Some (v, shown)).
Proof. reflexivity. Qed.

Lemma cache_resource_miss {V : Type} (body : st_io V) (v : V) (shown : list element) :
  body = (shown, Ok v) ->
  cache_resource body None = ((shown, Ok v), Some (v, shown)).
Proof. intros ->. reflexivity. Qed.

(** ** The loaders never raise *)

Lemma loadA_cases (w : World) :
  AppA.load_model_pipeline w =
    match unpickle_file w "model_pipeline_Nb.pkl" with
    | Ok p => ([], Ok (Some p))
    | Raise (FileNotFoundError m) =>
        ([st_error "Model file not found. Please ensure 'model_pipeline_Nb.pkl' exists in the directory."],
         Ok None)
    | Raise e => ([st_error ("Error loading model pipeline: " ++ str_exn e)], Ok None)
    end.
Proof.
  unfold AppA.load_model_pipeline, unpickle_file, lift, try_except, result_bind.
  destruct (open_rb w _) as [file|e]; [destruct (pickle_load w file) as [p|e]|];
    try reflexivity; destruct e; reflexivity.
Qed.

Lemma loadB_cases (w : World) :
  AppB.load_model_and_preprocessor w =
    match unpickle_file w "model.pkl" with
    | Ok m =>
        match unpickle_file w "preprocessor.pkl" with
        | Ok p => ([], Ok (Some m, Some p))
        | Raise (FileNotFoundError _) =>
            ([st_error "Model or preprocessor files not found. Please ensure 'model.pkl' and 'preprocessor.pkl' exist in the current directory."],
             Ok (None, None))
        | Raise e =>
            ([st_error ("Error loading model or preprocessor: " ++ str_exn e)],
             Ok (None, None))
        end
    | Raise (FileNotFoundError _) =>
        ([st_error "Model or preprocessor files not found. Please ensure 'model.pkl' and 'preprocessor.pkl' exist in the current directory."],
         Ok (None, None))
    | Raise e =>
        ([st_error ("Error loading model or preprocessor: " ++ str_exn e)],
         Ok (None, None))
    end.
Proof.
  unfold AppB.load_model_and_preprocessor, unpickle_file, lift, try_except, result_bind.
  destruct (open_rb w "model.pkl") as [mf|e];
    [destruct (pickle_load w mf) as [m|e];
     [destruct (open_rb w "preprocessor.pkl") as [pf|e];
      [destruct (pickle_load w pf) as [p|e]|]|]|];
    try reflexivity; destruct e; reflexivity.
Qed.

Lemma loadA_outcome (w : World) :
  exists v shown,
    AppA.load_model_pipeline w = (shown, Ok v) /\ loader_outcome absentA v shown.
Proof.
  rewrite loadA_cases. unfold loader_outcome, absentA.
  destruct (unpickle_file w _) as [p|e].
  - exists (Some p), []. split; [reflexivity|]. left. split; [discriminate|reflexivity].
  - destruct e; eexists None, _; (split; [reflexivity|]); right;
      (split; [reflexivity|]); eexists; split; reflexivity.
Qed.

Lemma loadB_outcome (w : World) :
  exists v shown,
    AppB.load_model_and_preprocessor w = (shown, Ok v) /\ loader_outcome absentB v shown.
Proof.
  rewrite loadB_cases. unfold loader_outcome, absentB.
  destruct (unpickle_file w "model.pkl") as [m|e].
  - destruct (unpickle_file w "preprocessor.pkl") as [p|e].
    + exists (Some m, Some p), []. split; [reflexivity|]. left.
      split; [discriminate|reflexivity].
    + destruct e; eexists (None, None), _; (split; [reflexivity|]); right;
        (split; [reflexivity|]); eexists; split; reflexivity.
  - destruct e; eexists (None, None), _; (split; [reflexivity|]); right;
      (split; [reflexivity|]); eexists; split; reflexivity.
Qed.

(** ** Cache invariant *)

Lemma runA_cache (w : World) (c : AppA.Cache) (b : bool) (r : ApplicantRecord) :
  snd (AppA.run w c b r) = snd (cache_resource (AppA.load_model_pipeline w) c).
Proof.
  unfold AppA.run. destruct (cache_resource _ c). reflexivity.
Qed.

Lemma runB_cache (w : World) (c : AppB.Cache) (b : bool) (r : ApplicantRecord) :
  snd (AppB.run w c b r) = snd (cache_resource (AppB.load_model_and_preprocessor w) c).
Proof.
  unfold AppB.run. destruct (cache_resource _ c). reflexivity.
Qed.

Lemma reachableA_inv (c : AppA.Cache) :
  reachableA c ->
  c = None \/ exists v shown, c = Some (v, shown) /\ loader_outcome absentA v shown.
Proof.
  induction 1 as [|w c b r Hc IH].
  - now left.
  - right. rewrite runA_cache. destruct IH as [->|(v & shown & -> & Hv)].
    + destruct (loadA_outcome w) as (v & shown & Hload & Hv).
      rewrite (cache_resource_miss _ _ _ Hload). simpl. eauto.
    + rewrite cache_resource_hit. simpl. eauto.
Qed.

Lemma reachableB_inv (c : AppB.Cache) :
  reachableB c ->
  c = None \/ exists v shown, c = Some (v, shown) /\ loader_outcome absentB v shown.
Proof.
  induction 1 as [|w c b r Hc IH].
  - now left.
  - right. rewrite runB_cache. destruct IH as [->|(v & shown & -> & Hv)].
    + destruct (loadB_outcome w) as (v & shown & Hload & Hv).
      rewrite (cache_resource_miss _ _ _ Hload). simpl. eauto.
    + rewrite cache_resource_hit. simpl. eauto.
Qed.

(** From a reachable cache the loader call yields a value, shows what the
    loader showed, and leaves both in the cache. *)
Lemma cachedA (w : World) (c : AppA.Cache) :
  reachableA c ->
  exists v shown,
    cache_resource (AppA.load_model_pipeline w) c = ((shown, Ok v), Some (v, shown))
    /\ loader_outcome absentA v shown /\ pipeline_in w c = v.
Proof.
  intros Hc. unfold pipeline_in, cached_value.
  destruct (reachableA_inv c Hc) as [->|(v & shown & -> & Hv)].
  - destruct (loadA_outcome w) as (v & shown & Hload & Hv).
    exists v, shown. rewrite (cache_resource_miss _ _ _ Hload). auto.
  - exists v, shown. rewrite cache_resource_hit. auto.
Qed.

Lemma cachedB (w : World) (c : AppB.Cache) :
  reachableB c ->
  exists v shown,
    cache_resource (AppB.load_model_and_preprocessor w) c = ((shown, Ok v), Some (v, shown))
    /\ loader_outcome absentB v shown /\ objects_in w c = v.
Proof.
  intros Hc. unfold objects_in, cached_value.
  destruct (reachableB_inv c Hc) as [->|(v & shown & -> & Hv)].
  - destruct (loadB_outcome w) as (v & shown & Hload & Hv).
    exists v, shown. rewrite (cache_resource_miss _ _ _ Hload). auto.
  - exists v, shown. rewrite cache_resource_hit. auto.
Qed.

(** ** The prediction block and the whole page *)

Lemma prediction_blockA (p : PyObject) (r : ApplicantRecord) :
  AppA.prediction_block p r = (result_areaA p r, Ok tt).
Proof.
  unfold AppA.prediction_block, result_areaA, lift, bind, try_except.
  destruct (AppA.inference p r) as [[[l row] conf]|e]; reflexivity.
Qed.

Lemma prediction_blockB (m p : PyObject) (r : ApplicantRecord) :
  AppB.prediction_block m p r = (result_areaB m p r, Ok tt).
Proof.
  unfold AppB.prediction_block, result_areaB, lift, bind, try_except.
  destruct (AppB.inference m p r) as [[[l row] conf]|e]; reflexivity.
Qed.

Lemma runA_page (w : World) (c : AppA.Cache) (b : bool) (r : ApplicantRecord) :
  reachableA c ->
  exists shown,
    loader_outcome absentA (pipeline_in w c) shown /\
    AppA.run w c b r =
      ((AppA.intro ++ shown ++ AppA.form ::
          (if enteredA w c b then result_areaA (as_object (pipeline_in w c)) r else []),
        Ok tt)%list,
       Some (pipeline_in w c, shown)).
Proof.
  intros Hc. destruct (cachedA w c Hc) as (v & shown & Hcache & Hv & Hp).
  exists shown. unfold enteredA. rewrite Hp. split; [assumption|].
  unfold AppA.run. rewrite Hcache. unfold bind, AppA.emit_all, emit, ret.
  destruct (b && truth v); [rewrite prediction_blockA|];
    rewrite ?app_nil_r; reflexivity.
Qed.

Lemma runB_page (w : World) (c : AppB.Cache) (b : bool) (r : ApplicantRecord) :
  reachableB c ->
  exists shown,
    loader_outcome absentB (objects_in w c) shown /\
    AppB.run w c b r =
      ((AppB.intro ++ shown ++ AppB.form ::
          (if enteredB w c b then result_areaB (model_in w c) (preprocessor_in w c) r else []),
        Ok tt)%list,
       Some (objects_in w c, shown)).
Proof.
  intros Hc. destruct (cachedB w c Hc) as (v & shown & Hcache & Hv & Hp).
  exists shown. unfold enteredB, model_in, preprocessor_in. rewrite Hp. split; [assumption|].
  unfold AppB.run. rewrite Hcache. unfold bind, AppB.emit_all, emit, ret.
  destruct v as [model preprocessor]. simpl fst. simpl snd.
  destruct (b && truth model && truth preprocessor); [rewrite prediction_blockB|];
    rewrite ?app_nil_r; reflexivity.
Qed.

(** ** Where result elements can sit on a page *)

Lemma not_in_of_class (f : element -> bool) (x : element) (l : list element) :
  Forall (fun e => f e = false) l -> f x = true -> ~ In x l.
Proof.
  intros Hl Hx Hin. rewrite Forall_forall in Hl.
  specialize (Hl x Hin). congruence.
Qed.

Lemma introA_no_result : Forall (fun e => is_result e = false) AppA.intro.
Proof. repeat constructor. Qed.

Lemma introB_no_result : Forall (fun e => is_result e = false) AppB.intro.
Proof. repeat constructor. Qed.

Lemma shown_no_result {V : Type} (absent : V -> Prop) (v : V) (shown : list element) :
  loader_outcome absent v shown -> Forall (fun e => is_result e = false) shown.
Proof.
  intros [[_ ->]|[_ (msg & -> & Hmsg)]]; repeat constructor. exact Hmsg.
Qed.

Lemma error_area_no_result (e : exn) :
  Forall (fun x => is_result x = false) (error_area e).
Proof. repeat constructor. Qed.

Lemma in_pageA (x : element) (w : World) (c : AppA.Cache) (b : bool) (r : ApplicantRecord) :
  reachableA c -> is_result x = true ->
  (In x (page_of (AppA.run w c b r)) <->
   enteredA w c b = true /\ In x (result_areaA (as_object (pipeline_in w c)) r)).
Proof.
  intros Hc Hx. destruct (runA_page w c b r Hc) as (shown & Hshown & ->).
  unfold page_of. cbn [fst]. rewrite !in_app_iff. cbn [In].
  pose proof (not_in_of_class _ x _ introA_no_result Hx) as N1.
  pose proof (not_in_of_class _ x _ (shown_no_result _ _ _ Hshown) Hx) as N2.
  assert (N3 : AppA.form <> x) by (intros <-; discriminate Hx).
  destruct (enteredA w c b); cbn [In]; intuition congruence.
Qed.

Lemma in_pageB (x : element) (w : World) (c : AppB.Cache) (b : bool) (r : ApplicantRecord) :
  reachableB c -> is_result x = true ->
  (In x (page_of (AppB.run w c b r)) <->
   enteredB w c b = true /\ In x (result_areaB (model_in w c) (preprocessor_in w c) r)).
Proof.
  intros Hc Hx. destruct (runB_page w c b r Hc) as (shown & Hshown & ->).
  unfold page_of. cbn [fst]. rewrite !in_app_iff. cbn [In].
  pose proof (not_in_of_class _ x _ introB_no_result Hx) as N1.
  pose proof (not_in_of_class _ x _ (shown_no_result _ _ _ Hshown) Hx) as N2.
  assert (N3 : AppB.form <> x) by (intros <-; discriminate Hx).
  destruct (enteredB w c b); cbn [In]; intuition congruence.
Qed.







(* ================================================================== *)
(** * C1: the two label encodings *)



(* ================================================================== *)
(** * Inference: what a successful call sequence returned *)

Lemma getitem_ok {A : Type} (l : list A) (i : nat) (a : A) :
  getitem l i = Ok a <-> nth_error l i = Some a.
Proof.
  unfold getitem. destruct (nth_error l i); split; intros H;
    try discriminate; congruence.
Qed.

Lemma inferenceA_ok (p : PyObject) (r : ApplicantRecord)
    (l : pyval) (row : list float) (conf : float) :
  AppA.inference p r = Ok (l, row, conf) ->
  exists preds probs,
    predict p (Frame (AppA.input_data r)) = Ok preds /\ nth_error preds 0 = Some l /\
    predict_proba p (Frame (AppA.input_data r)) = Ok probs /\
    nth_error probs 0 = Some row /\
    nth_error row (if py_eq_int l 1 then 1 else 0)%nat = Some conf.
Proof.
  unfold AppA.inference, result_bind.
  destruct (predict p _) as [preds|]; [|discriminate].
  destruct (getitem preds 0) as [l'|] eqn:Hl; [|discriminate].
  destruct (predict_proba p _) as [probs|]; [|discriminate].
  destruct (getitem probs 0) as [row'|] eqn:Hrow; [|discriminate].
  destruct (py_eq_int l' 1) eqn:Heq;
    (destruct (getitem row' _) as [conf'|] eqn:Hconf; [|discriminate]);
    intros [= <- <- <-]; exists preds, probs; rewrite Heq;
    apply getitem_ok in Hl, Hrow, Hconf; auto 10.
Qed.

Lemma inferenceB_ok (m p : PyObject) (r : ApplicantRecord)
    (l : pyval) (row : list float) (conf : float) :
  AppB.inference m p r = Ok (l, row, conf) ->
  exists processed preds probs,
    transform p (Frame (AppB.input_data r)) = Ok processed /\
    predict m processed = Ok preds /\ nth_error preds 0 = Some l /\
    predict_proba m processed = Ok probs /\
    nth_error probs 0 = Some row /\
    nth_error row (if py_eq_int l 1 then 1 else 0)%nat = Some conf.
Proof.
  unfold AppB.inference, result_bind.
  destruct (transform p _) as [processed|]; [|discriminate].
  destruct (predict m _) as [preds|] eqn:Hpred; [|discriminate].
  destruct (getitem preds 0) as [l'|] eqn:Hl; [|discriminate].
  destruct (predict_proba m _) as [probs|] eqn:Hproba; [|discriminate].
  destruct (getitem probs 0) as [row'|] eqn:Hrow; [|discriminate].
  destruct (py_eq_int l' 1) eqn:Heq;
    (destruct (getitem row' _) as [conf'|] eqn:Hconf; [|discriminate]);
    intros [= <- <- <-]; exists processed, preds, probs; rewrite Heq;
    apply getitem_ok in Hl, Hrow, Hconf; auto 10.
Qed.

(** A label cannot equal both 0 and 1. *)
Lemma py_eq_int_zero_not_one (l : pyval) :
  py_eq_int l 0 = true -> py_eq_int l 1 = false.
Proof.
  destruct l as [|[]|z|f|s]; simpl; try discriminate; try reflexivity.
  - intros H. apply Z.eqb_eq in H. subst. reflexivity.
  - destruct f as [[]|[]| |[] mf ef]; try discriminate; reflexivity.
Qed.

(* ================================================================== *)
(** * C2: the confidence score is the probability at the label's index *)

(** C2.  Whenever inference succeeds, in either variant, the label is the
    first entry of what [predict] returned, the probability vector is the
    first row of what [predict_proba] returned, and the confidence score is
    the entry of that vector at index 1 when the label equals 1 and at index
    0 when the label equals 0. *)
Theorem confidence_is_probability_of_predicted_label
    (r : ApplicantRecord) (l : pyval) (row : list float) (conf : float) :
  (forall p, AppA.inference p r = Ok (l, row, conf) ->
     (exists preds probs,
        predict p (Frame (AppA.input_data r)) = Ok preds /\
        nth_error preds 0 = Some l /\
        predict_proba p (Frame (AppA.input_data r)) = Ok probs /\
        nth_error probs 0 = Some row) /\
     (py_eq_int l 1 = true -> nth_error row 1 = Some conf) /\
     (py_eq_int l 0 = true -> nth_error row 0 = Some conf))
  /\
  (forall m p, AppB.inference m p r = Ok (l, row, conf) ->
     (exists processed preds probs,
        transform p (Frame (AppB.input_data r)) = Ok processed /\
        predict m processed = Ok preds /\
        nth_error preds 0 = Some l /\
        predict_proba m processed = Ok probs /\
        nth_error probs 0 = Some row) /\
     (py_eq_int l 1 = true -> nth_error row 1 = Some conf) /\
     (py_eq_int l 0 = true -> nth_error row 0 = Some conf)).
Proof.
  split.
  - intros p H. apply inferenceA_ok in H as (preds & probs & H1 & H2 & H3 & H4 & H5).
    split; [exists preds, probs; auto|]. split; intros Hl.
    + now rewrite Hl in H5.
    + now rewrite (py_eq_int_zero_not_one l Hl) in H5.
  - intros m p H.
    apply inferenceB_ok in H as (processed & preds & probs & H0 & H1 & H2 & H3 & H4 & H5).
    split; [exists processed, preds, probs; auto|]. split; intros Hl.
    + now rewrite Hl in H5.
    + now rewrite (py_eq_int_zero_not_one l Hl) in H5.
Qed.

Lemma confidence_is_probability_witness :
  nth_error [of_decimal 2 1; of_decimal 8 1] 1 = Some (of_decimal 8 1)
  /\ nth_error [of_decimal 7 1; of_decimal 3 1] 0 = Some (of_decimal 7 1).
Proof.
  split.
  - refine (proj1 (proj2 (proj1
      (confidence_is_probability_of_predicted_label scenario_record (PyInt 1)
         [of_decimal 2 1; of_decimal 8 1] (of_decimal 8 1))
      (stub_model (PyInt 1) [of_decimal 2 1; of_decimal 8 1]) _)) _);
      reflexivity.
  - refine (proj2 (proj2 (proj2
      (confidence_is_probability_of_predicted_label scenario_record (PyInt 0)
         [of_decimal 7 1; of_decimal 3 1] (of_decimal 7 1))
      (stub_model (PyInt 0) [of_decimal 7 1; of_decimal 3 1])
      (stub_model (PyInt 0) [of_decimal 7 1; of_decimal 3 1]) _)) _);
      reflexivity.
Defined.

(* ================================================================== *)
(** * C3: the feature row *)

(** C3.  For every record within the widget ranges, the data frame built
    by either variant has exactly the eight columns Age,
    StatedMonthlyIncome, LoanAmount, EmploymentStatus, CreditScore,
    LoanTerm, LoanPurpose, Delinquencies, in that order, each holding one
    row whose value is the submitted one, unchanged. *)
Theorem feature_row_equals_submitted_record (r : ApplicantRecord) (df : DataFrame) :
  valid_record r = true ->
  df = AppA.input_data r \/ df = AppB.input_data r ->
  List.length df = 8%nat /\
  map fst df =
    [ "Age"; "StatedMonthlyIncome"; "LoanAmount"; "EmploymentStatus";
      "CreditScore"; "LoanTerm"; "LoanPurpose"; "Delinquencies" ] /\
  map snd df = map (fun v => [v]) (submitted_values r) /\
  column "Age" df = Some [PyInt (age r)] /\
  column "StatedMonthlyIncome" df = Some [PyFloat (stated_monthly_income r)] /\
  column "LoanAmount" df = Some [PyFloat (loan_amount r)] /\
  column "EmploymentStatus" df = Some [PyStr (employment_status r)] /\
  column "CreditScore" df = Some [PyInt (credit_score r)] /\
  column "LoanTerm" df = Some [PyInt (loan_term r)] /\
  column "LoanPurpose" df = Some [PyStr (loan_purpose r)] /\
  column "Delinquencies" df = Some [PyInt (delinquencies r)].
Proof.
  intros _ [-> | ->]; repeat split.
Qed.

Lemma feature_row_boundary_witness :
  valid_record boundary_record = true /\
  column "Age" (AppA.input_data boundary_record) = Some [PyInt 18] /\
  column "LoanAmount" (AppB.input_data boundary_record) = Some [PyFloat (of_Z 50000)] /\
  column "CreditScore" (AppA.input_data boundary_record) = Some [PyInt 300] /\
  column "Delinquencies" (AppB.input_data boundary_record) = Some [PyInt 20].
Proof.
  assert (V : valid_record boundary_record = true) by reflexivity.
  pose proof (feature_row_equals_submitted_record boundary_record
                (AppA.input_data boundary_record) V (or_introl eq_refl)) as HA.
  pose proof (feature_row_equals_submitted_record boundary_record
                (AppB.input_data boundary_record) V (or_intror eq_refl)) as HB.
  split; [exact V|].
  split; [exact (proj1 (proj2 (proj2 (proj2 HA))))|].
  split; [exact (proj1 (proj2 (proj2 (proj2 (proj2 (proj2 HB))))))|].
  split; [exact (proj1 (proj2 (proj2 (proj2 (proj2 (proj2 (proj2 (proj2 HA))))))))|].
  exact (proj2 (proj2 (proj2 (proj2 (proj2 (proj2 (proj2 (proj2 (proj2 (proj2 HB)))))))))).
Defined.

(* ================================================================== *)
(** * C4: a failed load *)

Lemma runA_without_pipeline (w : World) (shown : list element) (b : bool)
    (r : ApplicantRecord) :
  AppA.run w (Some (None, shown)) b r =
    (((AppA.intro ++ shown ++ [AppA.form])%list, Ok tt), Some (None, shown)).
Proof.
  unfold AppA.run. rewrite cache_resource_hit.
  unfold bind, AppA.emit_all, emit, ret, truth. simpl as_object. simpl truthy.
  rewrite andb_false_r, app_nil_r. reflexivity.
Qed.

Lemma runB_without_objects (w : World) (shown : list element) (b : bool)
    (r : ApplicantRecord) :
  AppB.run w (Some ((None, None), shown)) b r =
    (((AppB.intro ++ shown ++ [AppB.form])%list, Ok tt), Some ((None, None), shown)).
Proof.
  unfold AppB.run. rewrite cache_resource_hit.
  unfold bind, AppB.emit_all, emit, ret, truth. simpl as_object. simpl truthy.
  rewrite andb_false_r, app_nil_r. reflexivity.
Qed.

Lemma sessionA_without_pipeline (shown : list element)
    (subs : list (World * bool * ApplicantRecord)) :
  Forall (fun out => out = ((AppA.intro ++ shown ++ [AppA.form])%list, Ok tt))
         (sessionA (Some (None, shown)) subs).
Proof.
  induction subs as [|[[w b] r] rest IH]; cbn [sessionA].
  - constructor.
  - rewrite runA_without_pipeline. constructor; [reflexivity | exact IH].
Qed.

Lemma sessionB_without_objects (shown : list element)
    (subs : list (World * bool * ApplicantRecord)) :
  Forall (fun out => out = ((AppB.intro ++ shown ++ [AppB.form])%list, Ok tt))
         (sessionB (Some ((None, None), shown)) subs).
Proof.
  induction subs as [|[[w b] r] rest IH]; cbn [sessionB].
  - constructor.
  - rewrite runB_without_objects. constructor; [reflexivity | exact IH].
Qed.

Lemma runA_first (w : World) (v : option PyObject) (shown : list element)
    (b : bool) (r : ApplicantRecord) :
  AppA.load_model_pipeline w = (shown, Ok v) ->
  AppA.run w None b r = AppA.run w (Some (v, shown)) b r.
Proof.
  intros H. unfold AppA.run.
  rewrite (cache_resource_miss _ _ _ H), cache_resource_hit. reflexivity.
Qed.

Lemma runB_first (w : World) (v : option PyObject * option PyObject)
    (shown : list element) (b : bool) (r : ApplicantRecord) :
  AppB.load_model_and_preprocessor w = (shown, Ok v) ->
  AppB.run w None b r = AppB.run w (Some (v, shown)) b r.
Proof.
  intros H. unfold AppB.run.
  rewrite (cache_resource_miss _ _ _ H), cache_resource_hit. reflexivity.
Qed.

Lemma loadA_unreadable (w : World) :
  unreadable w "model_pipeline_Nb.pkl" ->
  exists msg,
    AppA.load_model_pipeline w = ([st_error msg], Ok None) /\
    is_result (st_error msg) = false.
Proof.
  intros [e He]. rewrite loadA_cases, He.
  destruct e; eexists; split; reflexivity.
Qed.

Lemma loadB_unreadable (w : World) :
  unreadable w "model.pkl" \/ unreadable w "preprocessor.pkl" ->
  exists msg,
    AppB.load_model_and_preprocessor w = ([st_error msg], Ok (None, None)) /\
    is_result (st_error msg) = false.
Proof.
  rewrite loadB_cases. intros [[e He]|[e He]].
  - rewrite He. destruct e; eexists; split; reflexivity.
  - rewrite He. destruct (unpickle_file w "model.pkl") as [m|e'];
      [destruct e | destruct e']; eexists; split; reflexivity.
Qed.

(** C4.  If an artifact file cannot be opened or unpickled, the loader
    shows one error message and returns [None] (a pair of [None]s in variant
    B) instead of raising; from then on every run of the session, whatever
    is submitted and whatever the disk holds later, renders the
    introduction, that error message and the form, and nothing else: the
    prediction branch is not entered. *)
Theorem load_failure_blocks_every_prediction (w : World) :
  (unreadable w "model_pipeline_Nb.pkl" ->
   exists msg,
     AppA.load_model_pipeline w = ([st_error msg], Ok None) /\
     is_result (st_error msg) = false /\
     forall b r subs,
       Forall (fun out => out = ((AppA.intro ++ [st_error msg; AppA.form])%list, Ok tt))
              (sessionA None ((w, b, r) :: subs)))
  /\
  (unreadable w "model.pkl" \/ unreadable w "preprocessor.pkl" ->
   exists msg,
     AppB.load_model_and_preprocessor w = ([st_error msg], Ok (None, None)) /\
     is_result (st_error msg) = false /\
     forall b r subs,
       Forall (fun out => out = ((AppB.intro ++ [st_error msg; AppB.form])%list, Ok tt))
              (sessionB None ((w, b, r) :: subs))).
Proof.
  split; intros H.
  - destruct (loadA_unreadable w H) as (msg & Hload & Hmsg).
    exists msg. repeat split; try assumption. intros b r subs.
    cbn [sessionA]. rewrite (runA_first _ _ _ _ _ Hload), runA_without_pipeline.
    constructor; [reflexivity|]. apply (sessionA_without_pipeline [st_error msg]).
  - destruct (loadB_unreadable w H) as (msg & Hload & Hmsg).
    exists msg. repeat split; try assumption. intros b r subs.
    cbn [sessionB]. rewrite (runB_first _ _ _ _ _ Hload), runB_without_objects.
    constructor; [reflexivity|]. apply (sessionB_without_objects [st_error msg]).
Qed.

Lemma load_failure_witness :
  unreadable empty_disk "model_pipeline_Nb.pkl" /\
  (exists msg,
     Forall (fun out => out = ((AppA.intro ++ [st_error msg; AppA.form])%list, Ok tt))
            (sessionA None [ (empty_disk, true, scenario_record);
                             (stub_world, true, scenario_record) ])) /\
  (exists msg,
     Forall (fun out => out = ((AppB.intro ++ [st_error msg; AppB.form])%list, Ok tt))
            (sessionB None [ (empty_disk, true, scenario_record);
                             (stub_world, true, scenario_record) ])).
Proof.
  assert (U : forall name, unreadable empty_disk name)
    by (intros name; eexists; reflexivity).
  destruct (load_failure_blocks_every_prediction empty_disk) as [HA HB].
  split; [apply U|]. split.
  - destruct (HA (U _)) as (msg & _ & _ & Hs). exists msg. apply Hs.
  - destruct (HB (or_introl (U _))) as (msg & _ & _ & Hs). exists msg. apply Hs.
Defined.

(* ================================================================== *)
(** * C5: errors inside the prediction block *)

Lemma pipeline_in_hit (w : World) (v : option PyObject) (shown : list element) :
  pipeline_in w (Some (v, shown)) = v.
Proof. reflexivity. Qed.

Lemma objects_in_hit (w : World) (v : option PyObject * option PyObject)
    (shown : list element) :
  objects_in w (Some (v, shown)) = v.
Proof. reflexivity. Qed.

(** C5.  In a run whose prediction branch is entered and in which building
    the feature row, the preprocessing transform, [predict],
    [predict_proba] or the indexing of their results raises [e], the
    exception is caught: the script ends normally, the page shows "Error
    during prediction: " followed by the message of [e], it shows no
    verdict, no confidence score and no summary table, and the cache still
    holds the same artifact for every later run. *)
Theorem prediction_errors_are_caught (w : World) (r : ApplicantRecord) (e : exn) :
  (forall c, reachableA c ->
     truth (pipeline_in w c) = true ->
     AppA.inference (as_object (pipeline_in w c)) r = Raise e ->
     let out := AppA.run w c true r in
     snd (fst out) = Ok tt /\
     In (st_error ("Error during prediction: " ++ str_exn e)) (page_of out) /\
     Forall (fun x => is_result x = false) (page_of out) /\
     forall w', pipeline_in w' (snd out) = pipeline_in w c)
  /\
  (forall c, reachableB c ->
     truth (fst (objects_in w c)) && truth (snd (objects_in w c)) = true ->
     AppB.inference (model_in w c) (preprocessor_in w c) r = Raise e ->
     let out := AppB.run w c true r in
     snd (fst out) = Ok tt /\
     In (st_error ("Error during prediction: " ++ str_exn e)) (page_of out) /\
     Forall (fun x => is_result x = false) (page_of out) /\
     forall w', objects_in w' (snd out) = objects_in w c).
Proof.
  split; intros c Hc Htruth Hraise; cbv zeta.
  - destruct (runA_page w c true r Hc) as (shown & Hshown & ->).
    unfold page_of, enteredA, result_areaA. cbn [fst snd andb].
    rewrite Htruth, Hraise. repeat split.
    + rewrite !in_app_iff. right. right. right. now left.
    + repeat (apply Forall_app; split).
      * apply introA_no_result.
      * eapply shown_no_result; eassumption.
      * constructor; [reflexivity | apply error_area_no_result].
  - destruct (runB_page w c true r Hc) as (shown & Hshown & ->).
    unfold page_of, enteredB, result_areaB. cbn [fst snd andb].
    rewrite Htruth, Hraise. repeat split.
    + rewrite !in_app_iff. right. right. right. now left.
    + repeat (apply Forall_app; split).
      * apply introB_no_result.
      * eapply shown_no_result; eassumption.
      * constructor; [reflexivity | apply error_area_no_result].
Qed.

Lemma prediction_errors_witness :
  In (st_error "Error during prediction: could not convert string to float: 'Employed'")
     (page_of (AppA.run (disk_with broken_model) None true default_record))
  /\ Forall (fun x => is_result x = false)
       (page_of (AppB.run (disk_with broken_model) None true default_record)).
Proof.
  destruct (prediction_errors_are_caught (disk_with broken_model) default_record
              (OtherException "ValueError" "could not convert string to float: 'Employed'"))
    as [HA HB].
  split.
  - exact (proj1 (proj2 (HA None reachableA_start eq_refl eq_refl))).
  - exact (proj1 (proj2 (proj2 (HB None reachableB_start eq_refl eq_refl)))).
Defined.

(* ================================================================== *)
(** * C7: resubmitting the same record *)

(** C7.  Run the script on a record from any cache state, then run it a
    second time on the same record from the cache the first run left,
    whatever the disk holds by then: the second run binds the same
    artifact, its inference returns the same label and confidence score (or
    the same exception), it renders the same page, and it leaves the same
    cache. *)
Theorem resubmission_is_deterministic (w w' : World) (b : bool) (r : ApplicantRecord) :
  (forall c,
     let out := AppA.run w c b r in
     pipeline_in w' (snd out) = pipeline_in w c /\
     AppA.inference (as_object (pipeline_in w' (snd out))) r
       = AppA.inference (as_object (pipeline_in w c)) r /\
     AppA.run w' (snd out) b r = out)
  /\
  (forall c,
     let out := AppB.run w c b r in
     objects_in w' (snd out) = objects_in w c /\
     AppB.inference (model_in w' (snd out)) (preprocessor_in w' (snd out)) r
       = AppB.inference (model_in w c) (preprocessor_in w c) r /\
     AppB.run w' (snd out) b r = out).
Proof.
  split; intros c; cbv zeta.
  - assert (E : exists v shown,
               AppA.run w c b r = AppA.run w' (Some (v, shown)) b r /\
               snd (AppA.run w' (Some (v, shown)) b r) = Some (v, shown) /\
               pipeline_in w c = v).
    { destruct c as [[v shown]|].
      - exists v, shown. repeat split.
      - destruct (loadA_outcome w) as (v & shown & Hload & _).
        exists v, shown. rewrite (runA_first _ _ _ _ _ Hload).
        repeat split. unfold pipeline_in, cached_value.
        now rewrite (cache_resource_miss _ _ _ Hload). }
    destruct E as (v & shown & -> & Hsnd & ->).
    rewrite Hsnd, pipeline_in_hit. repeat split.
  - assert (E : exists v shown,
               AppB.run w c b r = AppB.run w' (Some (v, shown)) b r /\
               snd (AppB.run w' (Some (v, shown)) b r) = Some (v, shown) /\
               objects_in w c = v).
    { destruct c as [[v shown]|].
      - exists v, shown. repeat split.
      - destruct (loadB_outcome w) as (v & shown & Hload & _).
        exists v, shown. rewrite (runB_first _ _ _ _ _ Hload).
        repeat split. unfold objects_in, cached_value.
        now rewrite (cache_resource_miss _ _ _ Hload). }
    destruct E as (v & shown & -> & Hsnd & Hobj).
    unfold model_in, preprocessor_in. rewrite Hobj, Hsnd, objects_in_hit. repeat split.
Qed.

(* ================================================================== *)
(** * C8: the end-to-end scenario *)

(** C8.  Variant A, started with an empty cache on a disk whose pipeline
    always predicts label 1 with probabilities 0.2 and 0.8, run on the
    scenario record with the button pressed, renders the introduction, the
    form, then the eligible banner, the line "Confidence Score: 80.00%" and
    the summary table of the record. *)
Theorem scenario_renders_eligible_with_80_percent :
  AppA.run stub_world None true scenario_record =
    (((AppA.intro ++
       [ AppA.form;
         st_subheader "Prediction Result";
         st_success (check_mark ++ " Eligible for Loan");
         st_write "Confidence Score: 80.00%";
         st_markdown "Based on your inputs, you are likely to be **approved** for a loan.";
         st_subheader "Applicant Information Summary";
         st_table
           [ ("Parameter",
               [ PyStr "Age"; PyStr "Monthly Income (USD)"; PyStr "Loan Amount (USD)";
                 PyStr "Employment Status"; PyStr "Credit Score";
                 PyStr "Loan Term (months)"; PyStr "Loan Purpose";
                 PyStr "Delinquencies" ]);
             ("Value",
               [ PyInt 30; PyStr "$5,000.00"; PyStr "$10,000.00"; PyStr "Employed";
                 PyInt 700; PyInt 36; PyStr "Debt Consolidation"; PyInt 0 ]) ] ])%list,
      Ok tt),
     Some (Some (stub_model (PyInt 1) [of_decimal 2 1; of_decimal 8 1]), [])).
Proof. vm_compute. reflexivity. Qed.

(* ================================================================== *)
(** * C6: bounds of the confidence score *)

Lemma selected_entry_in_row (l : pyval) (row : list float) (conf : float) :
  nth_error row (if py_eq_int l 1 then 1 else 0)%nat = Some conf -> In conf row.
Proof. apply nth_error_In. Qed.

Lemma selected_entry_of_binary_label (l : pyval) (row : list float) (conf top : float) :
  nth_error row (if py_eq_int l 1 then 1 else 0)%nat = Some conf ->
  (py_eq_int l 1 = true /\ nth_error row 1 = Some top) \/
  (py_eq_int l 0 = true /\ nth_error row 0 = Some top) ->
  top = conf.
Proof.
  intros Hsel [[Hl Htop]|[Hl Htop]].
  - rewrite Hl in Hsel. congruence.
  - rewrite (py_eq_int_zero_not_one l Hl) in Hsel. congruence.
Qed.

Lemma confidence_bounds_core (l : pyval) (row : list float) (conf : float) :
  nth_error row (if py_eq_int l 1 then 1 else 0)%nat = Some conf ->
  (Forall (fun q => in_unit_interval q = true) row -> in_unit_interval conf = true) /\
  (forall top,
     (py_eq_int l 1 = true /\ nth_error row 1 = Some top) \/
     (py_eq_int l 0 = true /\ nth_error row 0 = Some top) ->
     Forall (fun q => PyFloat.leb q top = true) row ->
     exists m, py_max row = Some m /\ PyFloat.eqb conf m = true).
Proof.
  intros Hsel. split.
  - intros Hall. rewrite Forall_forall in Hall.
    apply Hall. eapply selected_entry_in_row; eassumption.
  - intros top Htop Hall.
    rewrite (selected_entry_of_binary_label l row conf top Hsel Htop) in Hall.
    apply py_max_of_bound; [eapply selected_entry_in_row; eassumption | exact Hall].
Qed.

(** C6, as stated, fails for a label outside 0 and 1.  A three-class
    artifact predicts label 2 with probabilities 0.1, 0.2 and 0.7: every
    entry lies in the unit interval and the entry of the predicted label
    (index 2) is the maximum of the vector, yet both variants report the
    entry at index 0, which differs from that maximum. *)
Lemma confidence_is_not_max_for_label_two :
  AppA.inference (stub_model (PyInt 2) three_class_row) default_record
    = Ok (PyInt 2, three_class_row, of_decimal 1 1)
  /\ AppB.inference (stub_model (PyInt 2) three_class_row)
       (stub_model (PyInt 2) three_class_row) default_record
     = Ok (PyInt 2, three_class_row, of_decimal 1 1)
  /\ Forall (fun q => in_unit_interval q = true) three_class_row
  /\ nth_error three_class_row 2 = Some (of_decimal 7 1)
  /\ Forall (fun q => PyFloat.leb q (of_decimal 7 1) = true) three_class_row
  /\ py_max three_class_row = Some (of_decimal 7 1)
  /\ PyFloat.eqb (of_decimal 1 1) (of_decimal 7 1) = false.
Proof.
  repeat split; try reflexivity; repeat constructor.
Qed.

(** C6, amended.  Whenever inference succeeds, in either variant, the
    label is the first entry of what [predict] returned and the vector the
    first row of what [predict_proba] returned; if every entry of that
    vector lies between 0.0 and 1.0, so does the confidence score; and if
    the label equals 1 or 0 and the entry at the label's index is at least
    every entry of the vector, the confidence score equals (under float
    [==]) Python's [max] of the vector. *)
Theorem confidence_in_unit_interval_and_max
    (r : ApplicantRecord) (l : pyval) (row : list float) (conf : float) :
  (forall p, AppA.inference p r = Ok (l, row, conf) ->
     (exists preds probs,
        predict p (Frame (AppA.input_data r)) = Ok preds /\
        nth_error preds 0 = Some l /\
        predict_proba p (Frame (AppA.input_data r)) = Ok probs /\
        nth_error probs 0 = Some row) /\
     (Forall (fun q => in_unit_interval q = true) row -> in_unit_interval conf = true) /\
     (forall top,
        (py_eq_int l 1 = true /\ nth_error row 1 = Some top) \/
        (py_eq_int l 0 = true /\ nth_error row 0 = Some top) ->
        Forall (fun q => PyFloat.leb q top = true) row ->
        exists m, py_max row = Some m /\ PyFloat.eqb conf m = true))
  /\
  (forall m p, AppB.inference m p r = Ok (l, row, conf) ->
     (exists processed preds probs,
        transform p (Frame (AppB.input_data r)) = Ok processed /\
        predict m processed = Ok preds /\
        nth_error preds 0 = Some l /\
        predict_proba m processed = Ok probs /\
        nth_error probs 0 = Some row) /\
     (Forall (fun q => in_unit_interval q = true) row -> in_unit_interval conf = true) /\
     (forall top,
        (py_eq_int l 1 = true /\ nth_error row 1 = Some top) \/
        (py_eq_int l 0 = true /\ nth_error row 0 = Some top) ->
        Forall (fun q => PyFloat.leb q top = true) row ->
        exists mx, py_max row = Some mx /\ PyFloat.eqb conf mx = true)).
Proof.
  split.
  - intros p H. apply inferenceA_ok in H as (preds & probs & H1 & H2 & H3 & H4 & Hsel).
    split; [exists preds, probs; auto|].
    now apply confidence_bounds_core with (l := l).
  - intros m p H.
    apply inferenceB_ok in H
      as (processed & preds & probs & H0 & H1 & H2 & H3 & H4 & Hsel).
    split; [exists processed, preds, probs; auto 10|].
    now apply confidence_bounds_core with (l := l).
Qed.

Lemma confidence_bounds_witness :
  in_unit_interval (of_decimal 8 1) = true /\
  (exists m, py_max [of_decimal 2 1; of_decimal 8 1] = Some m /\
             PyFloat.eqb (of_decimal 8 1) m = true) /\
  in_unit_interval (of_decimal 7 1) = true /\
  (exists m, py_max [of_decimal 7 1; of_decimal 3 1] = Some m /\
             PyFloat.eqb (of_decimal 7 1) m = true).
Proof.
  pose proof (proj1 (confidence_in_unit_interval_and_max scenario_record (PyInt 1)
                       [of_decimal 2 1; of_decimal 8 1] (of_decimal 8 1))
                (stub_model (PyInt 1) [of_decimal 2 1; of_decimal 8 1]) eq_refl)
    as (_ & Hbound & Hmax).
  pose proof (proj2 (confidence_in_unit_interval_and_max scenario_record (PyInt 0)
                       [of_decimal 7 1; of_decimal 3 1] (of_decimal 7 1))
                (stub_model (PyInt 0) [of_decimal 7 1; of_decimal 3 1])
                (stub_model (PyInt 0) [of_decimal 7 1; of_decimal 3 1]) eq_refl)
    as (_ & Hbound0 & Hmax0).
  split; [|split; [|split]].
  - apply Hbound. repeat constructor.
  - apply (Hmax (of_decimal 8 1)).
    + left. split; reflexivity.
    + repeat constructor.
  - apply Hbound0. repeat constructor.
  - apply (Hmax0 (of_decimal 7 1)).
    + right. split; reflexivity.
    + repeat constructor.
Defined.

(* ================================================================== *)
(** * C9: what the result area shows *)

Lemma string_app_assoc (a b c : string) : (a ++ b) ++ c = a ++ (b ++ c).
Proof.
  induction a as [|ch a IH]; simpl; [reflexivity | now rewrite IH].
Qed.

Lemma digit_char_is_digit (d : Z) : 0 <= d <= 9 -> is_digit (digit_char d) = true.
Proof.
  intros H.
  assert (C : d = 0 \/ d = 1 \/ d = 2 \/ d = 3 \/ d = 4 \/ d = 5 \/ d = 6
              \/ d = 7 \/ d = 8 \/ d = 9) by lia.
  repeat (destruct C as [->|C]; [reflexivity|]). subst. reflexivity.
Qed.

Lemma fixed2_shape (comma s : bool) (h : Z) (suffix : string) :
  exists pre d1 d2,
    fixed2_of_hundredths comma s h ++ suffix
      = pre ++ "." ++ String d1 (String d2 suffix)
    /\ is_digit d1 = true /\ is_digit d2 = true.
Proof.
  unfold fixed2_of_hundredths, two_digits.
  exists (sign_string s ++
          (if comma then group_thousands (string_of_Z_nonneg (h / 100))
           else string_of_Z_nonneg (h / 100))),
         (digit_char (h mod 100 / 10)), (digit_char ((h mod 100) mod 10)).
  split; [|split].
  - rewrite !string_app_assoc. reflexivity.
  - apply digit_char_is_digit. Z.div_mod_to_equations. lia.
  - apply digit_char_is_digit. Z.div_mod_to_equations. lia.
Qed.

(** A finite percentage is printed with exactly two digits after the point. *)
Lemma format_percent2_shape (x : float) :
  is_finite (mul x (of_Z 100)) = true ->
  exists pre d1 d2,
    format_percent2 x = pre ++ "." ++ String d1 (String d2 "%")
    /\ is_digit d1 = true /\ is_digit d2 = true.
Proof.
  unfold format_percent2, format_fixed2.
  destruct (mul x (of_Z 100)) as [s|s| |s m e]; try discriminate; intros _;
    apply fixed2_shape.
Qed.

Lemma confidence_line_is_result (s : string) :
  is_result (st_write ("Confidence Score: " ++ s)) = true.
Proof.
  unfold is_result, is_verdict, is_confidence. cbn [orb].
  change ("Confidence Score: " ++ s) with
    (String "C" (String "o" (String "n" (String "f" (String "i" (String "d"
     (String "e" (String "n" (String "c" (String "e" (String " " (String "S"
     (String "c" (String "o" (String "r" (String "e" (String ":" (String " " s)))))))))))))))))).
  cbn. destruct s; reflexivity.
Qed.

Lemma in_result_areaA (p : PyObject) (r : ApplicantRecord)
    (l : pyval) (row : list float) (conf : float) :
  AppA.inference p r = Ok (l, row, conf) ->
  In (st_write ("Confidence Score: " ++ format_percent2 conf)) (result_areaA p r) /\
  In (st_table (AppA.summary_data r)) (result_areaA p r).
Proof.
  intros H. unfold result_areaA, AppA.verdict, AppA.confidence_line. rewrite H.
  split.
  - right. apply in_or_app. left. destruct (py_eq_int l 1); right; now left.
  - right. apply in_or_app. right. right. now left.
Qed.

Lemma in_result_areaB (m p : PyObject) (r : ApplicantRecord)
    (l : pyval) (row : list float) (conf : float) :
  AppB.inference m p r = Ok (l, row, conf) ->
  In (st_write ("Confidence Score: " ++ format_percent2 conf)) (result_areaB m p r) /\
  In (st_table (AppB.summary_data r)) (result_areaB m p r).
Proof.
  intros H. unfold result_areaB, AppB.verdict, AppB.confidence_line. rewrite H.
  split.
  - right. apply in_or_app. left. destruct (py_eq_int l 0); right; now left.
  - right. apply in_or_app. right. right. now left.
Qed.

(** C9, as stated, fails: with an income of 1234.567 the [Value] column of
    the rendered table is not the list of submitted values, its income row
    reads "$1,234.57", and the table is the same as for the different income
    1234.57. *)
Lemma summary_table_rounds_money_fields :
  In (st_table (AppA.summary_data (record_with_income income_1234_567)))
     (page_of (AppA.run stub_world None true (record_with_income income_1234_567)))
  /\ column "Value" (AppA.summary_data (record_with_income income_1234_567))
       <> Some (submitted_values (record_with_income income_1234_567))
  /\ column "Value" (AppB.summary_data (record_with_income income_1234_567))
       <> Some (submitted_values (record_with_income income_1234_567))
  /\ option_map (fun col => nth_error col 1)
       (column "Value" (AppA.summary_data (record_with_income income_1234_567)))
       = Some (Some (PyStr "$1,234.57"))
  /\ record_with_income income_1234_567 <> record_with_income income_1234_57
  /\ AppA.summary_data (record_with_income income_1234_567)
       = AppA.summary_data (record_with_income income_1234_57)
  /\ AppB.summary_data (record_with_income income_1234_567)
       = AppB.summary_data (record_with_income income_1234_57).
Proof.
  split; [|split; [|split; [|split; [|split; [|split]]]]].
  - vm_compute. do 9 right. now left.
  - vm_compute. discriminate.
  - vm_compute. discriminate.
  - vm_compute. reflexivity.
  - intros H. apply (f_equal stated_monthly_income) in H. vm_compute in H. discriminate.
  - vm_compute. reflexivity.
  - vm_compute. reflexivity.
Qed.

(** C9, amended.  In a run whose prediction branch is entered and whose
    inference succeeds, the page shows the line "Confidence Score: "
    followed by the score in the ['.2%'] format, which for a finite
    percentage ends in a point, two decimal digits and a percent sign, and
    it shows a two-column table of eight rows whose [Value] column holds Age,
    EmploymentStatus, CreditScore, LoanTerm, LoanPurpose and Delinquencies
    as submitted, and the income and the loan amount as a dollar sign
    followed by the amount rounded to two decimals with thousands
    separators. *)
Theorem result_shows_percentage_and_formatted_summary
    (w : World) (r : ApplicantRecord) (l : pyval) (row : list float) (conf : float) :
  let parameters :=
    [ PyStr "Age"; PyStr "Monthly Income (USD)"; PyStr "Loan Amount (USD)";
      PyStr "Employment Status"; PyStr "Credit Score"; PyStr "Loan Term (months)";
      PyStr "Loan Purpose"; PyStr "Delinquencies" ] in
  let values :=
    [ PyInt (age r);
      PyStr ("$" ++ format_fixed2 true (stated_monthly_income r));
      PyStr ("$" ++ format_fixed2 true (loan_amount r));
      PyStr (employment_status r); PyInt (credit_score r); PyInt (loan_term r);
      PyStr (loan_purpose r); PyInt (delinquencies r) ] in
  (forall c, reachableA c -> enteredA w c true = true ->
     AppA.inference (as_object (pipeline_in w c)) r = Ok (l, row, conf) ->
     In (st_write ("Confidence Score: " ++ format_percent2 conf))
        (page_of (AppA.run w c true r)) /\
     In (st_table [("Parameter", parameters); ("Value", values)])
        (page_of (AppA.run w c true r)))
  /\
  (forall c, reachableB c -> enteredB w c true = true ->
     AppB.inference (model_in w c) (preprocessor_in w c) r = Ok (l, row, conf) ->
     In (st_write ("Confidence Score: " ++ format_percent2 conf))
        (page_of (AppB.run w c true r)) /\
     In (st_table [("Parameter", parameters); ("Value", values)])
        (page_of (AppB.run w c true r)))
  /\
  (forall i, In i [0; 3; 4; 5; 6; 7]%nat ->
     nth_error values i = nth_error (submitted_values r) i)
  /\
  (is_finite (mul conf (of_Z 100)) = true ->
   exists pre d1 d2,
     format_percent2 conf = pre ++ "." ++ String d1 (String d2 "%")
     /\ is_digit d1 = true /\ is_digit d2 = true).
Proof.
  cbv zeta. split; [|split; [|split]].
  - intros c Hc He Hinf.
    destruct (in_result_areaA _ r l row conf Hinf) as [Hconf Htab].
    split; (apply (in_pageA _ w c true r Hc);
      [first [apply confidence_line_is_result | reflexivity] | split; assumption]).
  - intros c Hc He Hinf.
    destruct (in_result_areaB _ _ r l row conf Hinf) as [Hconf Htab].
    split; (apply (in_pageB _ w c true r Hc);
      [first [apply confidence_line_is_result | reflexivity] | split; assumption]).
  - intros i Hi. simpl in Hi.
    repeat (destruct Hi as [<-|Hi]; [reflexivity|]). contradiction.
  - apply format_percent2_shape.
Qed.

Lemma result_summary_witness :
  In (st_write "Confidence Score: 80.00%")
     (page_of (AppA.run stub_world None true (record_with_income income_1234_567)))
  /\ In (st_write "Confidence Score: 80.00%")
        (page_of (AppB.run stub_world None true (record_with_income income_1234_567)))
  /\ exists pre d1 d2,
       format_percent2 (of_decimal 8 1) = pre ++ "." ++ String d1 (String d2 "%")
       /\ is_digit d1 = true /\ is_digit d2 = true.
Proof.
  destruct (result_shows_percentage_and_formatted_summary stub_world
              (record_with_income income_1234_567) (PyInt 1)
              [of_decimal 2 1; of_decimal 8 1] (of_decimal 8 1))
    as (HA & HB & _ & Hshape).
  split; [|split].
  - exact (proj1 (HA None reachableA_start eq_refl eq_refl)).
  - exact (proj1 (HB None reachableB_start eq_refl eq_refl)).
  - apply Hshape. reflexivity.
Defined.

(* ================================================================== *)
(** * C10: labels other than 1 *)

(** C10.  Take a label that does not equal 1 (0, but also 2, a string,
    ...).  In either variant, whenever [predict] answers with that label
    and [predict_proba] with a vector that has an entry at index 0,
    inference succeeds and the confidence score is that entry, whatever the
    other entries are; conversely, whenever inference succeeds with such a
    label, the label and the vector are the first entries of what [predict]
    and [predict_proba] returned and the score is the vector's entry at
    index 0.  On the page of a run from a reachable cache whose prediction
    branch is entered, the confidence line then shows that entry. *)
Theorem label_other_than_one_reads_index_zero (r : ApplicantRecord) (l : pyval) :
  py_eq_int l 1 = false ->
  (forall p preds x rest probs,
     predict p (Frame (AppA.input_data r)) = Ok (l :: preds) ->
     predict_proba p (Frame (AppA.input_data r)) = Ok ((x :: rest) :: probs) ->
     AppA.inference p r = Ok (l, x :: rest, x))
  /\
  (forall m p processed preds x rest probs,
     transform p (Frame (AppB.input_data r)) = Ok processed ->
     predict m processed = Ok (l :: preds) ->
     predict_proba m processed = Ok ((x :: rest) :: probs) ->
     AppB.inference m p r = Ok (l, x :: rest, x))
  /\
  (forall p row conf, AppA.inference p r = Ok (l, row, conf) ->
     exists preds probs,
       predict p (Frame (AppA.input_data r)) = Ok preds /\
       nth_error preds 0 = Some l /\
       predict_proba p (Frame (AppA.input_data r)) = Ok probs /\
       nth_error probs 0 = Some row /\
       nth_error row 0 = Some conf)
  /\
  (forall m p row conf, AppB.inference m p r = Ok (l, row, conf) ->
     exists processed preds probs,
       transform p (Frame (AppB.input_data r)) = Ok processed /\
       predict m processed = Ok preds /\
       nth_error preds 0 = Some l /\
       predict_proba m processed = Ok probs /\
       nth_error probs 0 = Some row /\
       nth_error row 0 = Some conf)
  /\
  (forall w c preds x rest probs,
     reachableA c -> enteredA w c true = true ->
     predict (as_object (pipeline_in w c)) (Frame (AppA.input_data r)) = Ok (l :: preds) ->
     predict_proba (as_object (pipeline_in w c)) (Frame (AppA.input_data r))
       = Ok ((x :: rest) :: probs) ->
     In (st_write ("Confidence Score: " ++ format_percent2 x))
        (page_of (AppA.run w c true r)))
  /\
  (forall w c processed preds x rest probs,
     reachableB c -> enteredB w c true = true ->
     transform (preprocessor_in w c) (Frame (AppB.input_data r)) = Ok processed ->
     predict (model_in w c) processed = Ok (l :: preds) ->
     predict_proba (model_in w c) processed = Ok ((x :: rest) :: probs) ->
     In (st_write ("Confidence Score: " ++ format_percent2 x))
        (page_of (AppB.run w c true r))).
Proof.
  intros Hl.
  assert (FA : forall p preds x rest probs,
             predict p (Frame (AppA.input_data r)) = Ok (l :: preds) ->
             predict_proba p (Frame (AppA.input_data r)) = Ok ((x :: rest) :: probs) ->
             AppA.inference p r = Ok (l, x :: rest, x)).
  { intros p preds x rest probs H1 H2. unfold AppA.inference, result_bind.
    rewrite H1, H2. cbn. rewrite Hl. reflexivity. }
  assert (FB : forall m p processed preds x rest probs,
             transform p (Frame (AppB.input_data r)) = Ok processed ->
             predict m processed = Ok (l :: preds) ->
             predict_proba m processed = Ok ((x :: rest) :: probs) ->
             AppB.inference m p r = Ok (l, x :: rest, x)).
  { intros m p processed preds x rest probs H0 H1 H2.
    unfold AppB.inference, result_bind.
    rewrite H0, H1, H2. cbn. rewrite Hl. reflexivity. }
  split; [exact FA|]. split; [exact FB|]. split; [|split; [|split]].
  - intros p row conf H.
    apply inferenceA_ok in H as (preds & probs & H1 & H2 & H3 & H4 & Hsel).
    rewrite Hl in Hsel. exists preds, probs. auto 10.
  - intros m p row conf H.
    apply inferenceB_ok in H
      as (processed & preds & probs & H0 & H1 & H2 & H3 & H4 & Hsel).
    rewrite Hl in Hsel. exists processed, preds, probs. auto 10.
  - intros w c preds x rest probs Hc He H1 H2.
    apply (in_pageA _ w c true r Hc); [apply confidence_line_is_result|].
    split; [exact He|].
    exact (proj1 (in_result_areaA _ r l (x :: rest) x (FA _ _ _ _ _ H1 H2))).
  - intros w c processed preds x rest probs Hc He H0 H1 H2.
    apply (in_pageB _ w c true r Hc); [apply confidence_line_is_result|].
    split; [exact He|].
    exact (proj1 (in_result_areaB _ _ r l (x :: rest) x (FB _ _ _ _ _ _ _ H0 H1 H2))).
Qed.

Lemma label_two_reads_class_zero_witness :
  AppA.inference (stub_model (PyInt 2) three_class_row) default_record
    = Ok (PyInt 2, three_class_row, of_decimal 1 1)
  /\ AppB.inference (stub_model (PyInt 2) three_class_row)
       (stub_model (PyInt 2) three_class_row) default_record
     = Ok (PyInt 2, three_class_row, of_decimal 1 1)
  /\ In (st_write "Confidence Score: 10.00%")
        (page_of (AppA.run (disk_with (stub_model (PyInt 2) three_class_row))
                    None true default_record))
  /\ In (st_write "Confidence Score: 10.00%")
        (page_of (AppB.run (disk_with (stub_model (PyInt 2) three_class_row))
                    None true default_record))
  /\ nth_error three_class_row 2 = Some (of_decimal 7 1)
  /\ PyFloat.eqb (of_decimal 1 1) (of_decimal 7 1) = false.
Proof.
  destruct (label_other_than_one_reads_index_zero default_record (PyInt 2) eq_refl)
    as (FA & FB & _ & _ & PA & PB).
  split; [|split; [|split; [|split; [|split]]]].
  - exact (FA (stub_model (PyInt 2) three_class_row) [] (of_decimal 1 1)
              [of_decimal 2 1; of_decimal 7 1] [] eq_refl eq_refl).
  - exact (FB (stub_model (PyInt 2) three_class_row)
              (stub_model (PyInt 2) three_class_row)
              (Frame (AppB.input_data default_record)) [] (of_decimal 1 1)
              [of_decimal 2 1; of_decimal 7 1] [] eq_refl eq_refl eq_refl).
  - exact (PA (disk_with (stub_model (PyInt 2) three_class_row)) None []
              (of_decimal 1 1) [of_decimal 2 1; of_decimal 7 1] []
              reachableA_start eq_refl eq_refl eq_refl).
  - exact (PB (disk_with (stub_model (PyInt 2) three_class_row)) None
              (Frame (AppB.input_data default_record)) [] (of_decimal 1 1)
              [of_decimal 2 1; of_decimal 7 1] []
              reachableB_start eq_refl eq_refl eq_refl eq_refl).
  - reflexivity.
  - reflexivity.
Defined.

(* ================================================================== *)
(** * Further properties of the two scripts *)

(** ** A run from a filled cache *)

Lemma runA_from_cache (w : World) (v : option PyObject) (shown : list element)
    (b : bool) (r : ApplicantRecord) :
  AppA.run w (Some (v, shown)) b r =
    (((AppA.intro ++ shown ++ AppA.form ::
         (if b && truth v then result_areaA (as_object v) r else []))%list,
      Ok tt),
     Some (v, shown)).
Proof.
  unfold AppA.run. rewrite cache_resource_hit.
  unfold bind, AppA.emit_all, emit, ret.
  destruct (b && truth v); [rewrite prediction_blockA|];
    rewrite ?app_nil_r; reflexivity.
Qed.

Lemma runB_from_cache (w : World) (m p : option PyObject) (shown : list element)
    (b : bool) (r : ApplicantRecord) :
  AppB.run w (Some ((m, p), shown)) b r =
    (((AppB.intro ++ shown ++ AppB.form ::
         (if b && truth m && truth p
          then result_areaB (as_object m) (as_object p) r else []))%list,
      Ok tt),
     Some ((m, p), shown)).
Proof.
  unfold AppB.run. rewrite cache_resource_hit.
  unfold bind, AppB.emit_all, emit, ret.
  destruct (b && truth m && truth p); [rewrite prediction_blockB|];
    rewrite ?app_nil_r; reflexivity.
Qed.

(** Every run behaves as a run from some filled cache, which it leaves. *)
Lemma runA_as_cached (w : World) (c : AppA.Cache) (b : bool) (r : ApplicantRecord) :
  exists v shown, AppA.run w c b r = AppA.run w (Some (v, shown)) b r.
Proof.
  destruct c as [[v shown]|].
  - now exists v, shown.
  - destruct (loadA_outcome w) as (v & shown & Hload & _).
    exists v, shown. now apply runA_first.
Qed.

Lemma runB_as_cached (w : World) (c : AppB.Cache) (b : bool) (r : ApplicantRecord) :
  exists v shown, AppB.run w c b r = AppB.run w (Some (v, shown)) b r.
Proof.
  destruct c as [[v shown]|].
  - now exists v, shown.
  - destruct (loadB_outcome w) as (v & shown & Hload & _).
    exists v, shown. now apply runB_first.
Qed.

(** ** A prediction branch that is not entered *)

Lemma sessionA_blocked (v : option PyObject) (shown : list element)
    (subs : list (World * bool * ApplicantRecord)) :
  truth v = false ->
  Forall (fun out => out = ((AppA.intro ++ shown ++ [AppA.form])%list, Ok tt))
         (sessionA (Some (v, shown)) subs).
Proof.
  intros Hv. induction subs as [|[[w b] r] rest IH]; cbn [sessionA].
  - constructor.
  - rewrite runA_from_cache, Hv, andb_false_r.
    constructor; [reflexivity | exact IH].
Qed.

Lemma sessionB_blocked (m p : option PyObject) (shown : list element)
    (subs : list (World * bool * ApplicantRecord)) :
  truth m && truth p = false ->
  Forall (fun out => out = ((AppB.intro ++ shown ++ [AppB.form])%list, Ok tt))
         (sessionB (Some ((m, p), shown)) subs).
Proof.
  intros Hv. induction subs as [|[[w b] r] rest IH]; cbn [sessionB].
  - constructor.
  - rewrite runB_from_cache, <- andb_assoc, Hv, andb_false_r.
    constructor; [reflexivity | exact IH].
Qed.

(** X3.  An artifact that unpickles without error but is false in a
    boolean context (the scripts test [if submit_button and pipeline], not
    [is not None]) disables prediction silently: every run of the session
    renders the introduction and the form only, with no error message and
    no result.  In variant B one false object of the two is enough. *)
Theorem falsy_artifact_silently_disables_prediction (w : World) :
  (forall pipeline,
     unpickle_file w "model_pipeline_Nb.pkl" = Ok pipeline ->
     truthy pipeline = false ->
     forall b r subs,
       Forall (fun out => out = ((AppA.intro ++ [AppA.form])%list, Ok tt))
              (sessionA None ((w, b, r) :: subs)))
  /\
  (forall model preprocessor,
     unpickle_file w "model.pkl" = Ok model ->
     unpickle_file w "preprocessor.pkl" = Ok preprocessor ->
     truthy model && truthy preprocessor = false ->
     forall b r subs,
       Forall (fun out => out = ((AppB.intro ++ [AppB.form])%list, Ok tt))
              (sessionB None ((w, b, r) :: subs))).
Proof.
  split.
  - intros pipeline Hfile Hfalse b r subs.
    assert (Hload : AppA.load_model_pipeline w = ([], Ok (Some pipeline)))
      by (now rewrite loadA_cases, Hfile).
    cbn [sessionA]. rewrite (runA_first _ _ _ _ _ Hload), runA_from_cache.
    unfold truth at 1. cbn [as_object]. rewrite Hfalse, andb_false_r.
    constructor; [reflexivity|].
    apply (sessionA_blocked (Some pipeline) []). exact Hfalse.
  - intros model preprocessor Hm Hp Hfalse b r subs.
    assert (Hload : AppB.load_model_and_preprocessor w
                    = ([], Ok (Some model, Some preprocessor)))
      by (now rewrite loadB_cases, Hm, Hp).
    cbn [sessionB]. rewrite (runB_first _ _ _ _ _ Hload), runB_from_cache.
    unfold truth at 1 2. cbn [as_object]. rewrite <- andb_assoc, Hfalse, andb_false_r.
    constructor; [reflexivity|].
    apply (sessionB_blocked (Some model) (Some preprocessor) []). exact Hfalse.
Qed.

Lemma falsy_artifact_witness :
  Forall (fun out => out = ((AppA.intro ++ [AppA.form])%list, Ok tt))
         (sessionA None [ (disk_with falsy_object, true, default_record);
                          (stub_world, true, scenario_record) ])
  /\ Forall (fun out => out = ((AppB.intro ++ [AppB.form])%list, Ok tt))
            (sessionB None [ (disk_with falsy_object, true, default_record);
                             (stub_world, true, scenario_record) ]).
Proof.
  destruct (falsy_artifact_silently_disables_prediction (disk_with falsy_object))
    as [HA HB].
  split.
  - apply (HA falsy_object); reflexivity.
  - apply (HB falsy_object falsy_object); reflexivity.
Defined.

(** X4.  While the Predict button is not pressed, the record in the form
    has no effect: the run renders the same page and leaves the same cache
    for any two records, and from a reachable cache that page carries no
    verdict, no confidence line and no table. *)
Theorem unsubmitted_run_ignores_record (w : World) (r r' : ApplicantRecord) :
  (forall c, AppA.run w c false r = AppA.run w c false r') /\
  (forall c, AppB.run w c false r = AppB.run w c false r') /\
  (forall c, reachableA c ->
     Forall (fun x => is_result x = false) (page_of (AppA.run w c false r))) /\
  (forall c, reachableB c ->
     Forall (fun x => is_result x = false) (page_of (AppB.run w c false r))).
Proof.
  split; [|split; [|split]].
  - intros c. unfold AppA.run. destruct (cache_resource _ c). reflexivity.
  - intros c. unfold AppB.run. destruct (cache_resource _ c). reflexivity.
  - intros c Hc. destruct (runA_page w c false r Hc) as (shown & Hshown & ->).
    unfold page_of, enteredA. cbn [fst andb].
    repeat (apply Forall_app; split).
    + apply introA_no_result.
    + eapply shown_no_result; eassumption.
    + repeat constructor.
  - intros c Hc. destruct (runB_page w c false r Hc) as (shown & Hshown & ->).
    unfold page_of, enteredB. cbn [fst andb].
    repeat (apply Forall_app; split).
    + apply introB_no_result.
    + eapply shown_no_result; eassumption.
    + repeat constructor.
Qed.

Lemma unsubmitted_run_witness :
  Forall (fun x => is_result x = false)
         (page_of (AppA.run stub_world None false boundary_record))
  /\ Forall (fun x => is_result x = false)
            (page_of (AppB.run stub_world None false boundary_record)).
Proof.
  destruct (unsubmitted_run_ignores_record stub_world boundary_record default_record)
    as (_ & _ & HA & HB).
  split; [apply HA; apply reachableA_start | apply HB; apply reachableB_start].
Defined.

(** ** A probability vector with a single column *)

(** X5.  When [predict_proba] returns a row with one column (a model
    fitted on a single class), the outcome depends on the label alone: a
    label equal to 1 makes the script index column 1, which raises the
    IndexError that the handler then reports, while any other label yields
    that single entry as the confidence score. *)
Theorem single_column_vector_fails_only_for_label_one
    (r : ApplicantRecord) (l : pyval) (preds : list pyval)
    (x : float) (probs : list (list float)) :
  (forall p,
     predict p (Frame (AppA.input_data r)) = Ok (l :: preds) ->
     predict_proba p (Frame (AppA.input_data r)) = Ok ([x] :: probs) ->
     AppA.inference p r =
       if py_eq_int l 1
       then Raise (IndexError "index 1 is out of bounds for axis 0 with size 1")
       else Ok (l, [x], x))
  /\
  (forall m p processed,
     transform p (Frame (AppB.input_data r)) = Ok processed ->
     predict m processed = Ok (l :: preds) ->
     predict_proba m processed = Ok ([x] :: probs) ->
     AppB.inference m p r =
       if py_eq_int l 1
       then Raise (IndexError "index 1 is out of bounds for axis 0 with size 1")
       else Ok (l, [x], x)).
Proof.
  split.
  - intros p H1 H2. unfold AppA.inference, result_bind. rewrite H1, H2. cbn.
    destruct (py_eq_int l 1); reflexivity.
  - intros m p processed H0 H1 H2. unfold AppB.inference, result_bind.
    rewrite H0, H1, H2. cbn. destruct (py_eq_int l 1); reflexivity.
Qed.

Lemma single_column_vector_witness :
  AppA.inference (stub_model (PyInt 1) [of_Z 1]) default_record
    = Raise (IndexError "index 1 is out of bounds for axis 0 with size 1")
  /\ AppB.inference (stub_model (PyInt 0) [of_Z 1]) (stub_model (PyInt 0) [of_Z 1])
       default_record
     = Ok (PyInt 0, [of_Z 1], of_Z 1).
Proof.
  split.
  - exact (proj1 (single_column_vector_fails_only_for_label_one default_record
                    (PyInt 1) [] (of_Z 1) [])
             (stub_model (PyInt 1) [of_Z 1]) eq_refl eq_refl).
  - exact (proj2 (single_column_vector_fails_only_for_label_one default_record
                    (PyInt 0) [] (of_Z 1) [])
             (stub_model (PyInt 0) [of_Z 1]) (stub_model (PyInt 0) [of_Z 1])
             (Frame (AppB.input_data default_record)) eq_refl eq_refl eq_refl).
Defined.

(** ** The two variants compute the same inference *)

(** X6.  If variant A's pipeline is variant B's model applied after
    variant B's preprocessor (its [predict] and [predict_proba] first
    transform the table, then call the model), the two scripts compute the
    same label, probability vector and confidence score, or fail with the
    same exception, on every record.  Only the verdict they attach to the
    label differs. *)
Theorem variants_agree_when_pipeline_bundles_preprocessor
    (pipeline model preprocessor : PyObject) (r : ApplicantRecord) :
  (forall t, predict pipeline t
             = (x <- transform preprocessor t ;; predict model x)%result) ->
  (forall t, predict_proba pipeline t
             = (x <- transform preprocessor t ;; predict_proba model x)%result) ->
  AppA.inference pipeline r = AppB.inference model preprocessor r.
Proof.
  intros Hpredict Hproba. unfold AppA.inference, AppB.inference.
  rewrite Hpredict, Hproba.
  change (AppA.input_data r) with (AppB.input_data r).
  unfold result_bind.
  destruct (transform preprocessor _) as [processed|e]; reflexivity.
Qed.

Lemma variants_agree_witness :
  AppA.inference (stub_model (PyInt 1) [of_decimal 2 1; of_decimal 8 1]) scenario_record
  = AppB.inference (stub_model (PyInt 1) [of_decimal 2 1; of_decimal 8 1])
      (stub_model (PyInt 1) [of_decimal 2 1; of_decimal 8 1]) scenario_record.
Proof.
  apply variants_agree_when_pipeline_bundles_preprocessor; intros t; reflexivity.
Defined.

(** ** Load-once *)

Lemma sessionA_ignores_disks (x : option PyObject * list element)
    (subs subs' : list (World * bool * ApplicantRecord)) :
  map submitted subs = map submitted subs' ->
  sessionA (Some x) subs = sessionA (Some x) subs'.
Proof.
  destruct x as [v shown]. revert subs'.
  induction subs as [|[[w b] r] rest IH]; intros [|[[w' b'] r'] rest'] H;
    try discriminate; [reflexivity|].
  injection H as Hb Hr Hrest. cbn in Hb, Hr. subst b' r'.
  cbn [sessionA]. rewrite !runA_from_cache. f_equal. now apply IH.
Qed.

Lemma sessionB_ignores_disks
    (x : (option PyObject * option PyObject) * list element)
    (subs subs' : list (World * bool * ApplicantRecord)) :
  map submitted subs = map submitted subs' ->
  sessionB (Some x) subs = sessionB (Some x) subs'.
Proof.
  destruct x as [[m p] shown]. revert subs'.
  induction subs as [|[[w b] r] rest IH]; intros [|[[w' b'] r'] rest'] H;
    try discriminate; [reflexivity|].
  injection H as Hb Hr Hrest. cbn in Hb, Hr. subst b' r'.
  cbn [sessionB]. rewrite !runB_from_cache. f_equal. now apply IH.
Qed.

(** X7.  The artifact files are read in the first run of a process only.
    Two sessions that start with the same run and continue with the same
    buttons and records render the same pages, whatever the disk holds
    during the later runs: an artifact that appears, disappears or changes
    after the first run is not noticed. *)
Theorem later_disks_are_never_read
    (w : World) (b : bool) (r : ApplicantRecord)
    (subs subs' : list (World * bool * ApplicantRecord)) :
  map submitted subs = map submitted subs' ->
  sessionA None ((w, b, r) :: subs) = sessionA None ((w, b, r) :: subs')
  /\ sessionB None ((w, b, r) :: subs) = sessionB None ((w, b, r) :: subs').
Proof.
  intros H. split.
  - cbn [sessionA]. destruct (runA_as_cached w None b r) as (v & shown & ->).
    rewrite runA_from_cache. f_equal. now apply sessionA_ignores_disks.
  - cbn [sessionB]. destruct (runB_as_cached w None b r) as ([m p] & shown & ->).
    rewrite runB_from_cache. f_equal. now apply sessionB_ignores_disks.
Qed.

Lemma later_disks_witness :
  sessionA None [ (empty_disk, true, default_record); (stub_world, true, scenario_record) ]
  = sessionA None [ (empty_disk, true, default_record); (empty_disk, true, scenario_record) ]
  /\
  sessionB None [ (stub_world, false, default_record); (empty_disk, true, scenario_record) ]
  = sessionB None [ (stub_world, false, default_record); (stub_world, true, scenario_record) ].
Proof.
  split.
  - exact (proj1 (later_disks_are_never_read empty_disk true default_record
                    [(stub_world, true, scenario_record)]
                    [(empty_disk, true, scenario_record)] eq_refl)).
  - exact (proj2 (later_disks_are_never_read stub_world false default_record
                    [(empty_disk, true, scenario_record)]
                    [(stub_world, true, scenario_record)] eq_refl)).
Defined.

(** ** The money cells of the summary table *)

Lemma string_app_empty (s : string) : s ++ "" = s.
Proof. induction s as [|ch s IH]; simpl; [reflexivity | now rewrite IH]. Qed.

Lemma uint_digits (d : Decimal.uint) :
  string_forall is_digit (NilEmpty.string_of_uint d) = true.
Proof. induction d; simpl; auto. Qed.

Lemma string_of_Z_nonneg_digits (n : Z) :
  string_of_Z_nonneg n <> "" /\
  string_forall is_digit (string_of_Z_nonneg n) = true.
Proof.
  unfold string_of_Z_nonneg, NilZero.string_of_uint.
  destruct (N.to_uint (Z.to_N n)) as [|d|d|d|d|d|d|d|d|d|d];
    (split; [discriminate|]);
    try reflexivity;
    simpl; apply uint_digits.
Qed.

(** Rounding to the nearest integer: the result is within one half. *)
Lemma round_half_even_div_nearest (num den : Z) :
  0 <= num -> 0 < den ->
  0 <= round_half_even_div num den /\
  2 * Z.abs (round_half_even_div num den * den - num) <= den.
Proof.
  intros Hnum Hden. unfold round_half_even_div.
  pose proof (Z.div_mod num den ltac:(lia)) as Hdm.
  pose proof (Z.mod_pos_bound num den Hden) as Hr.
  pose proof (Z.div_pos num den Hnum Hden) as Hq.
  set (q := num / den) in *. set (rem := num mod den) in *.
  assert (Hqd : q * den = num - rem) by lia.
  destruct (Z.compare_spec (2 * rem) den) as [E|L|G];
    [destruct (Z.even q)| |]; split; try lia;
    rewrite ?Z.mul_add_distr_r, Hqd; lia.
Qed.

Lemma hundredths_nearest (s : bool) (m : positive) (e : Z) :
  0 <= hundredths m e /\
  2 * Z.abs (hundredths m e * snd (ratio_of (S754_finite s m e))
             - 100 * fst (ratio_of (S754_finite s m e)))
    <= snd (ratio_of (S754_finite s m e)).
Proof.
  unfold hundredths, ratio_of. destruct e as [|p|p]; cbn [fst snd].
  - split; [lia|]. rewrite Z.pow_0_r. lia.
  - assert (0 < 2 ^ Z.pos p) by (apply Z.pow_pos_nonneg; lia).
    split; [nia|]. replace (_ - _) with 0 by ring. cbn. lia.
  - assert (Hden : 0 < 2 ^ Z.pos p) by (apply Z.pow_pos_nonneg; lia).
    destruct (round_half_even_div_nearest (Z.pos m * 100) (2 ^ Z.pos p)
                ltac:(lia) Hden) as [H0 H1].
    split; [exact H0|]. replace (100 * Z.pos m) with (Z.pos m * 100) by ring.
    exact H1.
Qed.

Lemma in_range_nonnegative (lo hi x : float) :
  PyFloat.leb lo x = true -> PyFloat.leb x hi = true ->
  nonnegative_finite lo = true -> is_finite hi = true ->
  nonnegative_finite x = true.
Proof.
  unfold PyFloat.leb, SFleb. intros Hlo Hhi Flo Fhi.
  destruct x as [s|[]| |[] m e]; try reflexivity;
    destruct lo as [?|[]| |[] ? ?], hi as [?|[]| |[] ? ?];
    simpl in *; discriminate.
Qed.

Lemma digit_chars_of_cents (h : Z) :
  is_digit (digit_char (h mod 100 / 10)) = true /\
  is_digit (digit_char (h mod 100 mod 10)) = true.
Proof.
  split; apply digit_char_is_digit; Z.div_mod_to_equations; lia.
Qed.

(** The text of a money cell for an amount that is zero or positive. *)
Lemma money_cell_text (x : float) :
  nonnegative_finite x = true ->
  exists h,
    0 <= h /\
    2 * Z.abs (h * snd (ratio_of x) - 100 * fst (ratio_of x)) <= snd (ratio_of x) /\
    "$" ++ format_fixed2 true x
      = "$" ++ (if is_negative_zero x then "-" else "")
            ++ group_thousands (string_of_Z_nonneg (h / 100))
            ++ "." ++ String (digit_char (h mod 100 / 10))
                        (String (digit_char (h mod 100 mod 10)) "").
Proof.
  destruct x as [s|s| |[] m e]; try discriminate; intros _.
  - exists 0. split; [lia|]. split; [cbn; lia|]. destruct s; reflexivity.
  - exists (hundredths m e).
    destruct (hundredths_nearest false m e) as [H0 H1].
    split; [exact H0|]. split; [exact H1|]. reflexivity.
Qed.

(** X9.  For every record within the widget ranges, the summary table of
    either variant shows the income (row 1) and the loan amount (row 2)
    rounded to the nearest cent: the cell is a dollar sign, a minus sign
    only when the amount is the float negative zero, the whole dollars in
    decimal digits with a comma before every group of three, a point and
    the two digits of the cents, where dollars and cents together are a
    non-negative number of cents that differs from a hundred times the
    amount by at most one half.  An amount in range is never shown as nan
    or inf. *)
Theorem money_cells_show_amount_rounded_to_cents
    (r : ApplicantRecord) (df : DataFrame) (i : nat) (amount : float) :
  valid_record r = true ->
  df = AppA.summary_data r \/ df = AppB.summary_data r ->
  (i = 1%nat /\ amount = stated_monthly_income r) \/
  (i = 2%nat /\ amount = loan_amount r) ->
  exists cents,
    0 <= cents /\
    2 * Z.abs (cents * snd (ratio_of amount) - 100 * fst (ratio_of amount))
      <= snd (ratio_of amount) /\
    option_map (fun col => nth_error col i) (column "Value" df)
      = Some (Some (PyStr
          ("$" ++ (if is_negative_zero amount then "-" else "")
               ++ group_thousands (string_of_Z_nonneg (cents / 100))
               ++ "." ++ String (digit_char (cents mod 100 / 10))
                           (String (digit_char (cents mod 100 mod 10)) "")))) /\
    string_of_Z_nonneg (cents / 100) <> "" /\
    string_forall is_digit (string_of_Z_nonneg (cents / 100)) = true /\
    is_digit (digit_char (cents mod 100 / 10)) = true /\
    is_digit (digit_char (cents mod 100 mod 10)) = true.
Proof.
  intros Hvalid Hdf Hi. unfold valid_record in Hvalid.
  repeat (apply andb_true_iff in Hvalid as [Hvalid ?]).
  assert (Hincome : nonnegative_finite (stated_monthly_income r) = true)
    by (eapply (in_range_nonnegative (of_Z 0) (of_Z 100000));
        try eassumption; reflexivity).
  assert (Hloan : nonnegative_finite (loan_amount r) = true)
    by (eapply (in_range_nonnegative (of_Z 1000) (of_Z 50000));
        try eassumption; reflexivity).
  assert (Hamount : nonnegative_finite amount = true)
    by (destruct Hi as [[_ ->]|[_ ->]]; assumption).
  assert (Hcol : option_map (fun col => nth_error col i) (column "Value" df)
                 = Some (Some (PyStr ("$" ++ format_fixed2 true amount)))).
  { destruct Hdf as [-> | ->]; destruct Hi as [[-> ->]|[-> ->]]; reflexivity. }
  destruct (money_cell_text amount Hamount) as (cents & Hpos & Hnear & Htext).
  destruct (string_of_Z_nonneg_digits (cents / 100)) as [Hne Hdigits].
  destruct (digit_chars_of_cents cents) as [Hd1 Hd2].
  exists cents. rewrite Hcol, Htext. auto 10.
Qed.

Lemma money_cells_witness :
  exists cents,
    0 <= cents /\
    2 * Z.abs (cents * snd (ratio_of income_1234_567)
               - 100 * fst (ratio_of income_1234_567))
      <= snd (ratio_of income_1234_567) /\
    option_map (fun col => nth_error col 1%nat)
      (column "Value" (AppA.summary_data (record_with_income income_1234_567)))
      = Some (Some (PyStr
          ("$" ++ (if is_negative_zero income_1234_567 then "-" else "")
               ++ group_thousands (string_of_Z_nonneg (cents / 100))
               ++ "." ++ String (digit_char (cents mod 100 / 10))
                           (String (digit_char (cents mod 100 mod 10)) "")))).
Proof.
  destruct (money_cells_show_amount_rounded_to_cents
              (record_with_income income_1234_567)
              (AppA.summary_data (record_with_income income_1234_567))
              1%nat income_1234_567 eq_refl (or_introl eq_refl)
              (or_introl (conj eq_refl eq_refl)))
    as (cents & H0 & H1 & H2 & _).
  exists cents. auto.
Defined.
